(** * coconut/command/util.py: subprocess execution and the code runner

    A shallow embedding of the functions of [coconut/command/util.py] that
    run console commands ([call_output], [run_cmd]) and that execute compiled
    Python inside a session ([interpret], [exec_func], [Runner]).

    Python objects that the code mutates are threaded explicitly: a function
    that mutates a dictionary or a list returns the mutated object next to
    its result, also when it raises. *)

From Stdlib Require Import ZArith String Ascii List Bool.
From stdpp Require Import gmap strings list fin_maps pretty.

(** ** Python values, exceptions and results *)

(** The values that the modelled code inspects.  [VObj] stands for any
    object the code only stores and passes around (functions, modules). *)
Inductive value : Type :=
| VNone
| VInt (z : Z)
| VStr (s : string)
| VObj (name : string).

#[global] Instance value_eq_dec : EqDecision value.
Proof. solve_decision. Defined.

(** References to list objects living in the caller's heap. *)
Definition loc := nat.

(** The exception classes named by the code, and [OtherException] for any
    other subclass of [BaseException] (the first field is the class name).
    [SyntaxError] also stands for its subclasses. *)
Inductive exn : Type :=
| SyntaxError (msg : string)
| SystemExit (code : value)
| OSError (msg : string)
| CalledProcessError (returncode : Z) (cmd : loc) (output : option string)
| CoconutInternalException (msg : string)
| ValueError (msg : string)
| OtherException (etype msg : string).

(** A traceback is the chain of frames reached through [tb_next], outermost
    frame first; the empty chain is Python's [None]. *)
Definition traceback := list string.

Inductive outcome (A : Type) : Type :=
| Ok (a : A)
| Raise (e : exn) (tb : traceback).
Arguments Ok {A} a.
Arguments Raise {A} e tb.

Definition is_SystemExit (e : exn) : bool :=
  match e with SystemExit _ => true | _ => false end.

(** ** String helpers of the Python runtime *)

(** [sep.join(parts)] *)
Fixpoint join (sep : string) (parts : list string) : string :=
  match parts with
  | [] => ""
  | [p] => p
  | p :: rest => p +:+ sep +:+ join sep rest
  end.

(** A string is a sequence of Unicode code points below 256.  [is_space]
    is [str.isspace] on one of them, which decides what [str.lstrip()] and
    [str.rstrip()] strip without argument: the code points 9 to 13, 28 to 31,
    32, 133 (next line) and 160 (no-break space). *)
Definition is_space (a : ascii) : bool :=
  match a with
  | "009"%char | "010"%char | "011"%char | "012"%char | "013"%char
  | "028"%char | "029"%char | "030"%char | "031"%char
  | " "%char | "133"%char | "160"%char => true
  | _ => false
  end.

(** [s.rstrip()] *)
Fixpoint rstrip (s : string) : string :=
  match s with
  | EmptyString => EmptyString
  | String a s' =>
      match rstrip s' with
      | EmptyString => if is_space a then EmptyString else String a EmptyString
      | r => String a r
      end
  end.

(** [x or y] on an optional string: [None] and the empty string are falsy. *)
Definition or_else (x : option string) (y : string) : string :=
  match x with
  | Some s => if decide (s = "") then y else s
  | None => y
  end.

(** ** Running console commands *)

Definition bytes := list Byte.byte.

(** What a child process does once it is started: every round of
    [p.communicate] yields the raw bytes of both pipes, and [p.poll()] after
    the round either still reports [None] ([Continues]) or the exit status
    ([Exits]). *)
Inductive process : Type :=
| Exits (raw_out raw_err : bytes) (retcode : Z)
| Continues (raw_out raw_err : bytes) (next : process).

(** The exit status [p.wait()] ends up with. *)
Fixpoint wait (p : process) : Z :=
  match p with
  | Exits _ _ retcode => retcode
  | Continues _ _ next => wait next
  end.

Inductive stream := Stdout | Stderr.

(** Calls made on [logger]. *)
Inductive log_event : Type :=
| log_prefix (prefix text : string)
| log_cmd (cmd : list string)
| log_exc.

(** The part of the interpreter state that [run_cmd] touches: the list
    objects of its caller and the log. *)
Record shell : Type := mkShell {
  lists : gmap loc (list string);
  logged : list log_event }.

Definition log (ev : log_event) (sh : shell) : shell :=
  mkShell (lists sh) (logged sh ++ [ev]).

(** What [run_cmd] takes from its platform. *)
Class Platform : Type := {
  (** [oserror_retcode] of [coconut.constants] *)
  oserror_retcode : Z;
  (** [hasattr(shutil, "which")] and [shutil.which] *)
  has_which : bool;
  which : string -> option string;
  (** [subprocess.Popen]: [None] when the launch raises [OSError]; otherwise
      the behaviour of the child as a function of the text written to its
      standard input by the first [communicate] *)
  Popen : list string -> option (option string -> process);
  (** [get_encoding] of [coconut.exceptions] and [bytes.decode] *)
  get_encoding : stream -> string;
  bytes_decode : string -> string -> bytes -> string }.

Section Subprocess.

Context `{Platform}.

(** [raw.decode(get_encoding(s), encoding_errors) if raw else ""] *)
Definition decode_chunk (s : stream) (encoding_errors : string) (raw : bytes) : string :=
  match raw with
  | [] => ""
  | _ => bytes_decode (get_encoding s) encoding_errors raw
  end.

(** [if text: logger.log_prefix(prefix, text.rstrip())] *)
Definition log_chunk (prefix text : string) (lg : list log_event) : list log_event :=
  if decide (text = "") then lg else lg ++ [log_prefix prefix (rstrip text)].

(** The body of the [while retcode is None] loop of [call_output], run
    until [p.poll()] reports an exit status. *)
Fixpoint communicate_loop (p : process) (stdin : option string) (encoding_errors : string)
    (stdout stderr : list string) (lg : list log_event)
    : list string * list string * Z * list log_event :=
  let lg0 :=
    match stdin with
    | Some text => lg ++ [log_prefix "<0 " (rstrip text)]
    | None => lg
    end in
  let round (raw_out raw_err : bytes) :=
    let out := decode_chunk Stdout encoding_errors raw_out in
    let err := decode_chunk Stderr encoding_errors raw_err in
    (stdout ++ [out], stderr ++ [err], log_chunk "2> " err (log_chunk "1> " out lg0)) in
  match p with
  | Exits raw_out raw_err retcode =>
      let '(stdout', stderr', lg') := round raw_out raw_err in
      (stdout', stderr', retcode, lg')
  | Continues raw_out raw_err next =>
      let '(stdout', stderr', lg') := round raw_out raw_err in
      communicate_loop next None encoding_errors stdout' stderr' lg'
  end.

(** [subprocess.Popen(cmd, ...)] once its keywords are accepted: an empty
    argument list raises [IndexError] (there is no [args[0]] to execute), a
    program that cannot be started raises [OSError]. *)
Definition start_process (cmd : list string) : outcome (option string -> process) :=
  match cmd with
  | [] => Raise (OtherException "IndexError" "list index out of range") []
  | _ :: _ =>
      match Popen cmd with
      | Some child => Ok child
      | None => Raise (OSError "cannot start process") []
      end
  end.

(** [call_output(cmd, stdin, encoding_errors)] *)
Definition call_output (cmd : list string) (stdin : option string) (encoding_errors : string)
    (lg : list log_event) : outcome (list string * list string * Z) * list log_event :=
  match start_process cmd with
  | Raise e tb => (Raise e tb, lg)
  | Ok child =>
      let '(stdout, stderr, retcode, lg') :=
        communicate_loop (child stdin) stdin encoding_errors [] [] lg in
      (Ok (stdout, stderr, retcode), lg')
  end.

(** [subprocess.call(cmd, **kwargs)], where the keywords hold at most a
    text under [stdin]: [Popen] wants a file there and raises
    [AttributeError] for a text, before it looks at the command.  Without it
    the child runs on the inherited console. *)
Definition subprocess_call (cmd : list string) (stdin : option string) : outcome Z :=
  match stdin with
  | Some _ =>
      Raise (OtherException "AttributeError" "'str' object has no attribute 'fileno'") []
  | None =>
      match start_process cmd with
      | Ok child => Ok (wait (child None))
      | Raise e tb => Raise e tb
      end
  end.

(** [subprocess.check_call(cmd, **kwargs)] *)
Definition subprocess_check_call (cmd_ref : loc) (cmd : list string) (stdin : option string)
    : outcome Z :=
  match subprocess_call cmd stdin with
  | Ok retcode =>
      if decide (retcode = 0%Z) then Ok 0%Z
      else Raise (CalledProcessError retcode cmd_ref None) []
  | Raise e tb => Raise e tb
  end.

(** The [try] block of [run_cmd]. *)
Definition run_cmd_try (cmd_ref : loc) (cmd : list string) (show_output raise_errs : bool)
    (stdin : option string) (sh : shell) : outcome value * shell :=
  if show_output && raise_errs then
    match subprocess_check_call cmd_ref cmd stdin with
    | Ok retcode => (Ok (VInt retcode), sh)
    | Raise e tb => (Raise e tb, sh)
    end
  else if show_output then
    match subprocess_call cmd stdin with
    | Ok retcode => (Ok (VInt retcode), sh)
    | Raise e tb => (Raise e tb, sh)
    end
  else
    match call_output cmd stdin "replace" (logged sh) with
    | (Ok (stdout, stderr, retcode), lg) =>
        let output := join "" (stdout ++ stderr) in
        if negb (retcode =? 0)%Z && raise_errs
        then (Raise (CalledProcessError retcode cmd_ref (Some output)) [], mkShell (lists sh) lg)
        else (Ok (VStr output), mkShell (lists sh) lg)
    | (Raise e tb, lg) => (Raise e tb, mkShell (lists sh) lg)
    end.

(** [run_cmd(cmd, show_output, raise_errs, stdin=...)], where [cmd] is a
    reference to the caller's list and the keywords hold at most a text
    under [stdin]. *)
Definition run_cmd (cmd : loc) (show_output raise_errs : bool) (stdin : option string)
    (sh : shell) : outcome value * shell :=
  match lists sh !! cmd with
  | None | Some [] =>
      (Raise (CoconutInternalException "console commands must be passed as non-empty lists") [], sh)
  | Some (cmd0 :: args) =>
      let cmd_now :=
        if has_which then or_else (which cmd0) cmd0 :: args else cmd0 :: args in
      let sh1 :=
        if has_which then mkShell (<[cmd := cmd_now]> (lists sh)) (logged sh) else sh in
      let sh2 := log (log_cmd cmd_now) sh1 in
      match run_cmd_try cmd cmd_now show_output raise_errs stdin sh2 with
      | (Raise (OSError _) _, sh3) =>
          let sh4 := log log_exc sh3 in
          if raise_errs then (Raise (CalledProcessError oserror_retcode cmd None) [], sh4)
          else if show_output then (Ok (VInt oserror_retcode), sh4)
          else (Ok (VStr ""), sh4)
      | res => res
      end
  end.

End Subprocess.

(** ** Executing compiled code *)

(** A namespace passed as [globals] to [eval] and [exec]. *)
Abbreviation env := (gmap string value).

(** What a call into the interpreter leaves behind: its result, the
    namespace it ran against (mutated in place, also when it raises) and the
    lines it printed. *)
Definition effect (A : Type) : Type := (outcome A * env * list string)%type.

(** [d.update(other)] *)
Definition update (d other : env) : env := other ∪ d.

(** The line feed used by [was_run_code]. *)
Definition nl : string := String "010"%char EmptyString.

(** [filename.split(sep, 1)] for a one-character separator: [None] when the
    separator does not occur (the result then has a single element). *)
Fixpoint split_once (sep : ascii) (s : string) : option (string * string) :=
  match s with
  | EmptyString => None
  | String a s' =>
      if Ascii.eqb a sep then Some (EmptyString, s')
      else match split_once sep s' with
           | Some (name, exts) => Some (String a name, exts)
           | None => None
           end
  end.

(** The attributes of a [Runner] object.  [exit] is the injected termination
    handler: it returns ([None]) or raises. *)
Record Runner : Type := mkRunner {
  exit : value -> option (exn * traceback);
  vars : env;
  stored : option (list string) }.

(** What the process has done so far that is visible from outside: lines
    printed on standard output, exceptions printed by
    [traceback.print_exception] (with the traceback they were printed with),
    and the calls received by the termination handler. *)
Record console : Type := mkConsole {
  stdout : list string;
  stderr : list (exn * traceback);
  exit_calls : list value }.

(** A method of [Runner]: it may mutate [self] and the console, and returns
    or raises. *)
Definition M (A : Type) : Type := Runner -> console -> outcome A * Runner * console.

Definition set_vars (g : env) (self : Runner) : Runner :=
  mkRunner (exit self) g (stored self).

Definition print_lines (out : list string) (con : console) : console :=
  mkConsole (stdout con ++ out) (stderr con) (exit_calls con).

(** [traceback.print_exception(etype, value, tb)] *)
Definition print_exception (e : exn) (tb : traceback) (con : console) : console :=
  mkConsole (stdout con) (stderr con ++ [(e, tb)]) (exit_calls con).

(** [sys.exit], the default termination handler. *)
Definition sys_exit (code : value) : option (exn * traceback) :=
  Some (SystemExit code, []).

(** The traceback loop of [handling_errors]: follow [tb_next] up to [n]
    times, stopping at [None]. *)
Fixpoint strip_layers (n : nat) (tb : traceback) : traceback :=
  match n with
  | O => tb
  | S n' =>
      match tb with
      | [] => []
      | _ :: tb_next => strip_layers n' tb_next
      end
  end.

(** What the runner takes from the Python interpreter and from the rest of
    the package. *)
Class Interpreter : Type := {
  (** constants of [coconut.constants] and [coconut.root] *)
  reserved_vars : list string;
  fixpath : string -> string;
  num_added_tb_layers : nat;
  PY26 : bool;
  (** the objects bound to [reload] and inserted under [__builtins__] *)
  reload : value;
  builtins : value;
  (** evaluation of a source text as one expression and execution of a
      source text as statements, both against a namespace that already holds
      [__builtins__]; and the built-in [ascii] *)
  eval_expr : string -> env -> effect value;
  exec_stmts : string -> env -> effect unit;
  builtin_ascii : value -> string;
  (** module loaders: [runpy.run_path(path, run_name="__main__")] and, for
      Python 2.6, [imp.find_module] followed by [imp.load_module]; both give
      the namespace of the module and what running it printed *)
  runpy_run_path : string -> outcome env * list string;
  imp_load_module : string -> string -> outcome env * list string;
  (** [os.path.split] *)
  os_path_split : string -> string * string;
  (** the namespace of the module [coconut.__coconut__] *)
  coconut_module : env }.

Section Execution.

Context `{Interpreter}.

(** Both [eval(code, globals)] and [exec(code, globals)] insert a
    reference to the built-in module under the key [__builtins__] when the
    dictionary has no such key, before the source is parsed. *)
Definition with_builtins (globals : env) : env :=
  match globals !! "__builtins__" with
  | Some _ => globals
  | None => <["__builtins__" := builtins]> globals
  end.

Definition builtin_eval (code : string) (globals : env) : effect value :=
  eval_expr code (with_builtins globals).

Definition builtin_exec (code : string) (globals : env) : effect unit :=
  exec_stmts code (with_builtins globals).

(** [exec_func(code, glob_vars)]; the three-argument form is used by no
    caller of this file. *)
Definition exec_func (code : string) (glob_vars : env) : effect value :=
  let '(res, g, out) := builtin_exec code glob_vars in
  match res with
  | Ok _ => (Ok VNone, g, out)
  | Raise e tb => (Raise e tb, g, out)
  end.

(** [interpret(code, in_vars)] *)
Definition interpret (code : string) (in_vars : env) : effect value :=
  match builtin_eval code in_vars with
  | (Raise (SyntaxError _) _, g, out) =>
      (* exec code outside of exception context *)
      let '(res, g', out') := exec_func code g in
      (res, g', out ++ out')
  | (Raise e tb, g, out) => (Raise e tb, g, out)
  | (Ok result, g, out) =>
      (* don't also exec code *)
      match result with
      | VNone => (Ok VNone, g, out)
      | _ => (Ok VNone, g, out ++ [builtin_ascii result])
      end
  end.

(** [splitname(path)] *)
Definition splitname (path : string) : outcome (string * string * string) :=
  let '(dirpath, filename) := os_path_split path in
  match split_once "."%char filename with
  | Some (name, exts) => Ok (dirpath, name, exts)
  | None => Raise (ValueError "not enough values to unpack") []
  end.

(** [run_file(path)] *)
Definition run_file (path : string) : outcome env * list string :=
  if PY26 then
    match splitname path with
    | Ok (dirpath, name, _) => imp_load_module name dirpath
    | Raise e tb => (Raise e tb, [])
    end
  else runpy_run_path path.

(** [Runner.build_vars(path)] *)
Definition build_vars (path : option string) : env :=
  let init_vars : env :=
    <["reload" := reload]> (<["__package__" := VNone]> (<["__name__" := VStr "__main__"]> ∅)) in
  let init_vars :=
    match path with
    | Some p => <["__file__" := VStr (fixpath p)]> init_vars
    | None => init_vars
    end in
  foldl (fun d var => <[var := VNone]> d) init_vars reserved_vars.

(** [Runner.store(line)] *)
Definition store (line : string) (self : Runner) : Runner :=
  match stored self with
  | Some lines => mkRunner (exit self) (vars self) (Some (lines ++ [line]))
  | None => self
  end.

(** [Runner.fix_pickle()] *)
Definition fix_pickle (self : Runner) : Runner :=
  set_vars
    (map_imap (fun var old =>
       if String.prefix "__" var then Some old
       else match coconut_module !! var with
            | Some new => Some new
            | None => Some old
            end) (vars self))
    self.

(** [self.exit(code)]: the handler receives the call, then returns or
    raises. *)
Definition call_exit {A : Type} (code : value) : M (option A) := fun self con =>
  let con' := mkConsole (stdout con) (stderr con) (exit_calls con ++ [code]) in
  match exit self code with
  | None => (Ok None, self, con')
  | Some (e, tb) => (Raise e tb, self, con')
  end.

(** [with self.handling_errors(all_errors_exit): body].  The result is
    [Some] of what [body] returned, or [None] when an exception of [body]
    was handled and control leaves the [with] block. *)
Definition handling_errors {A : Type} (all_errors_exit : bool) (body : M A) : M (option A) :=
  fun self con =>
  match body self con with
  | (Ok a, self1, con1) => (Ok (Some a), self1, con1)
  | (Raise (SystemExit code) _, self1, con1) => call_exit code self1 con1
  | (Raise e tb, self1, con1) =>
      let con2 := print_exception e (strip_layers num_added_tb_layers tb) con1 in
      if all_errors_exit then call_exit (VInt 1) self1 con2
      else (Ok None, self1, con2)
  end.

(** The function [Runner.run] selects with [use_eval]. *)
Definition run_func (use_eval : option bool) : string -> env -> effect value :=
  match use_eval with
  | None => interpret
  | Some true => builtin_eval
  | Some false => exec_func
  end.

(** The block under [with self.handling_errors(...)] in [Runner.run]. *)
Definition run_body (code : string) (use_eval : option bool) (path : option string)
    (store_ : bool) : M value := fun self con =>
  let '(result, self1, con1) :=
    match path with
    | None =>
        let '(res, g, out) := run_func use_eval code (vars self) in
        (res, set_vars g self, print_lines out con)
    | Some p =>
        let '(res, use_vars, out) := run_func use_eval code (build_vars (Some p)) in
        (* finally: self.vars.update(use_vars) *)
        (res, set_vars (update (vars self) use_vars) self, print_lines out con)
    end in
  match result with
  | Ok v => (Ok v, if store_ then store code self1 else self1, con1)
  | Raise e tb => (Raise e tb, self1, con1)
  end.

(** [Runner.run(code, use_eval, path, all_errors_exit, store)] *)
Definition run (code : string) (use_eval : option bool) (path : option string)
    (all_errors_exit store_ : bool) : M value := fun self con =>
  match handling_errors all_errors_exit (run_body code use_eval path store_) self con with
  | (Ok (Some result), self', con') => (Ok result, self', con')
  | (Ok None, self', con') => (Ok VNone, self', con')
  | (Raise e tb, self', con') => (Raise e tb, self', con')
  end.

(** [Runner.run_file(path, all_errors_exit)] *)
Definition Runner_run_file (path : string) (all_errors_exit : bool) : M unit := fun self con =>
  let path := fixpath path in
  let body : M unit := fun self con =>
    match run_file path with
    | (Ok module_vars, out) =>
        let self1 := set_vars (update (vars self) module_vars) self in
        match splitname path with
        | Ok (_, name, _) =>
            (Ok tt, store ("from " +:+ name +:+ " import *") self1, print_lines out con)
        | Raise e tb => (Raise e tb, self1, print_lines out con)
        end
    | (Raise e tb, out) => (Raise e tb, self, print_lines out con)
    end in
  match handling_errors all_errors_exit body self con with
  | (Ok _, self', con') => (Ok tt, self', con')
  | (Raise e tb, self', con') => (Raise e tb, self', con')
  end.

(** [Runner.was_run_code(get_all)] *)
Definition was_run_code (get_all : bool) (self : Runner) : outcome string * Runner :=
  match stored self with
  | None => (Ok "", self)
  | Some lines =>
      let lines' := if get_all then [join nl lines] else lines in
      let self' := mkRunner (exit self) (vars self) (Some lines') in
      match last lines' with
      | Some line => (Ok line, self')
      | None => (Raise (OtherException "IndexError" "list index out of range") [], self')
      end
  end.

(** [Runner.__init__(comp, exit, store, path)], where [comp] is given by its
    [getheader] method.  The import hooks switched by [auto_compilation]
    and [use_coconut_breakpoint] are outside this model. *)
Definition Runner_init (comp : option (string -> string))
    (exit_ : value -> option (exn * traceback)) (store_ : bool) (path : option string)
    (con : console) : outcome Runner * console :=
  let self := mkRunner exit_ (build_vars path) (if store_ then Some [] else None) in
  match comp with
  | None => (Ok self, con)
  | Some getheader =>
      let self1 := store (getheader "package:0") self in
      match run (getheader "code") None None false false self1 con with
      | (Ok _, self2, con2) => (Ok (fix_pickle self2), con2)
      | (Raise e tb, _, con2) => (Raise e tb, con2)
      end
  end.

End Execution.

(** ** The session histories and process traces the properties speak about *)

(** The raw bytes a child writes to each pipe, one chunk per round of
    [communicate]. *)
Fixpoint stdout_chunks (p : process) : list bytes :=
  match p with
  | Exits raw_out _ _ => [raw_out]
  | Continues raw_out _ next => raw_out :: stdout_chunks next
  end.

Fixpoint stderr_chunks (p : process) : list bytes :=
  match p with
  | Exits _ raw_err _ => [raw_err]
  | Continues _ raw_err next => raw_err :: stderr_chunks next
  end.

(** The command [run_cmd] launches for a caller's list [cmd0 :: args]. *)
Definition resolved `{Platform} (cmd0 : string) (args : list string) : list string :=
  (if has_which then or_else (which cmd0) cmd0 else cmd0) :: args.

(** A call on a [Runner] that may record a transcript entry. *)
Inductive call : Type :=
| call_run (code : string) (use_eval : option bool) (path : option string)
    (all_errors_exit store_ : bool)
| call_run_file (path : string) (all_errors_exit : bool).

Section Histories.

Context `{Interpreter}.

(** The state a call leaves behind, whether it returns or raises. *)
Definition perform (c : call) (self : Runner) (con : console) : Runner * console :=
  match c with
  | call_run code use_eval path all_errors_exit store_ =>
      let '(_, self', con') := run code use_eval path all_errors_exit store_ self con in
      (self', con')
  | call_run_file path all_errors_exit =>
      let '(_, self', con') := Runner_run_file path all_errors_exit self con in
      (self', con')
  end.

(** The namespace [Runner.run] hands to the selected function. *)
Definition run_namespace (path : option string) (self : Runner) : env :=
  match path with
  | None => vars self
  | Some p => build_vars (Some p)
  end.

(** Whether the fragment of a [run] call executes without raising. *)
Definition runs_cleanly (code : string) (use_eval : option bool) (path : option string)
    (self : Runner) : bool :=
  match run_func use_eval code (run_namespace path self) with
  | (Ok _, _, _) => true
  | (Raise _ _, _, _) => false
  end.

(** The fragment a [run] call has recorded, if any: the call asked for
    recording and the fragment ran without raising. *)
Definition run_fragment (c : call) (self : Runner) : list string :=
  match c with
  | call_run code use_eval path _ store_ =>
      if store_ && runs_cleanly code use_eval path self then [code] else []
  | call_run_file _ _ => []
  end.

(** The import line a [run_file] call has recorded, if any: the module
    loaded and its path has a name and an extension. *)
Definition import_line (c : call) : list string :=
  match c with
  | call_run _ _ _ _ _ => []
  | call_run_file path _ =>
      match run_file (fixpath path), splitname (fixpath path) with
      | (Ok _, _), Ok (_, name, _) => ["from " +:+ name +:+ " import *"]
      | _, _ => []
      end
  end.

(** A session driven through a sequence of calls. *)
Fixpoint perform_all (cs : list call) (self : Runner) (con : console) : Runner * console :=
  match cs with
  | [] => (self, con)
  | c :: cs' => let '(self', con') := perform c self con in perform_all cs' self' con'
  end.

(** The fragments recorded through [run] along a sequence of calls. *)
Fixpoint run_fragments (cs : list call) (self : Runner) (con : console) : list string :=
  match cs with
  | [] => []
  | c :: cs' =>
      let '(self', con') := perform c self con in
      run_fragment c self ++ run_fragments cs' self' con'
  end.

(** Every entry recorded along a sequence of calls, by [run] or by
    [run_file]. *)
Fixpoint entries (cs : list call) (self : Runner) (con : console) : list string :=
  match cs with
  | [] => []
  | c :: cs' =>
      let '(self', con') := perform c self con in
      (run_fragment c self ++ import_line c) ++ entries cs' self' con'
  end.

(** The decision procedure of section 4.2 of the specification, after its
    words: evaluate; a syntax-class error falls through to execution; a value
    other than [None] is printed; [None] falls through to execution as a
    statement sequence. *)
Definition spec_interpret (code : string) (in_vars : env) : effect value :=
  match builtin_eval code in_vars with
  | (Raise (SyntaxError _) _, g, out) =>
      let '(res, g', out') := exec_func code g in
      (res, g', out ++ out')
  | (Raise e tb, g, out) => (Raise e tb, g, out)
  | (Ok VNone, g, out) =>
      let '(res, g', out') := exec_func code g in
      (res, g', out ++ out')
  | (Ok result, g, out) => (Ok VNone, g, out ++ [builtin_ascii result])
  end.

End Histories.

(** ** A small Python for concrete runs

    Integer literals, names, [+], parentheses, calls of the built-ins
    [print] and [exit] with one argument, and assignments [name = expr]. *)
Module MiniPython.

Inductive token : Type :=
| TNum (n : Z)
| TName (x : string)
| TPlus
| TAssign
| TLpar
| TRpar.

Inductive expr : Type :=
| ENum (n : Z)
| EName (x : string)
| EAdd (e1 e2 : expr)
| ECall (f : string) (arg : expr).

Definition is_digit (a : Ascii.ascii) : bool :=
  (48 <=? nat_of_ascii a)%nat && (nat_of_ascii a <=? 57)%nat.

Definition is_letter (a : Ascii.ascii) : bool :=
  let n := nat_of_ascii a in
  ((65 <=? n)%nat && (n <=? 90)%nat) || ((97 <=? n)%nat && (n <=? 122)%nat) || (n =? 95)%nat.

Definition digit (a : Ascii.ascii) : Z := Z.of_nat (nat_of_ascii a - 48).

(** The word the lexer is in the middle of. *)
Inductive pending : Type :=
| PNone
| PNum (n : Z)
| PName (x : string).

Definition flush (p : pending) (acc : list token) : list token :=
  match p with
  | PNone => acc
  | PNum n => acc ++ [TNum n]
  | PName x => acc ++ [TName x]
  end.

(** Blanks between tokens. *)
Definition is_blank (a : Ascii.ascii) : bool :=
  match a with
  | " "%char | "009"%char => true
  | _ => false
  end.

Definition punct (a : Ascii.ascii) : option token :=
  match a with
  | "+"%char => Some TPlus
  | "="%char => Some TAssign
  | "("%char => Some TLpar
  | ")"%char => Some TRpar
  | _ => None
  end.

Fixpoint lex (s : string) (p : pending) (acc : list token) : option (list token) :=
  match s with
  | EmptyString => Some (flush p acc)
  | String a s' =>
      if is_digit a then
        match p with
        | PNone => lex s' (PNum (digit a)) acc
        | PNum n => lex s' (PNum (10 * n + digit a)%Z) acc
        | PName x => lex s' (PName (x +:+ String a EmptyString)) acc
        end
      else if is_letter a then
        match p with
        | PNone => lex s' (PName (String a EmptyString)) acc
        | PNum _ => None
        | PName x => lex s' (PName (x +:+ String a EmptyString)) acc
        end
      else if is_blank a then lex s' PNone (flush p acc)
      else
        match punct a with
        | Some t => lex s' PNone (flush p acc ++ [t])
        | None => None
        end
  end.

(** [expr := atom ('+' expr)?], [atom := NUM | NAME | NAME '(' expr ')' | '(' expr ')'] *)
Fixpoint parse_expr (fuel : nat) (ts : list token) : option (expr * list token) :=
  match fuel with
  | O => None
  | S fuel' =>
      let atom :=
        match ts with
        | TNum n :: rest => Some (ENum n, rest)
        | TName f :: TLpar :: rest =>
            match parse_expr fuel' rest with
            | Some (arg, TRpar :: rest') => Some (ECall f arg, rest')
            | _ => None
            end
        | TName x :: rest => Some (EName x, rest)
        | TLpar :: rest =>
            match parse_expr fuel' rest with
            | Some (e, TRpar :: rest') => Some (e, rest')
            | _ => None
            end
        | _ => None
        end in
      match atom with
      | Some (e1, TPlus :: rest) =>
          match parse_expr fuel' rest with
          | Some (e2, rest') => Some (EAdd e1 e2, rest')
          | None => None
          end
      | other => other
      end
  end.

(** A whole token list as one expression. *)
Definition parse_all (ts : list token) : option expr :=
  match parse_expr (S (length ts)) ts with
  | Some (e, []) => Some e
  | _ => None
  end.

(** [str(v)] and [ascii(v)] *)
Definition str (v : value) : string :=
  match v with
  | VNone => "None"
  | VInt z => pretty z
  | VStr s => s
  | VObj name => "<" +:+ name +:+ ">"
  end.

Definition repr (v : value) : string :=
  match v with
  | VStr s => "'" +:+ s +:+ "'"
  | _ => str v
  end.

(** The frames between the handler and a failing fragment. *)
Definition module_frame : traceback :=
  ["handling_errors"; "run"; "interpret"; "<module>"].

Fixpoint eval_ast (e : expr) (g : env) : outcome value * list string :=
  match e with
  | ENum n => (Ok (VInt n), [])
  | EName x =>
      match g !! x with
      | Some v => (Ok v, [])
      | None =>
          if decide (x = "print" ∨ x = "exit") then (Ok (VObj x), [])
          else (Raise (OtherException "NameError" x) module_frame, [])
      end
  | EAdd e1 e2 =>
      match eval_ast e1 g with
      | (Ok v1, out1) =>
          match eval_ast e2 g with
          | (Ok v2, out2) =>
              match v1, v2 with
              | VInt a, VInt b => (Ok (VInt (a + b)), out1 ++ out2)
              | _, _ => (Raise (OtherException "TypeError" "unsupported operand") module_frame,
                         out1 ++ out2)
              end
          | (Raise e tb, out2) => (Raise e tb, out1 ++ out2)
          end
      | failed => failed
      end
  | ECall f arg =>
      match g !! f with
      | Some _ => (Raise (OtherException "TypeError" "object is not callable") module_frame, [])
      | None =>
          if decide (f = "print") then
            match eval_ast arg g with
            | (Ok v, out) => (Ok VNone, out ++ [str v])
            | failed => failed
            end
          else if decide (f = "exit") then
            match eval_ast arg g with
            | (Ok v, out) => (Raise (SystemExit v) module_frame, out)
            | failed => failed
            end
          else (Raise (OtherException "NameError" f) module_frame, [])
      end
  end.

Definition syntax_error {A : Type} (g : env) : effect A :=
  (Raise (SyntaxError "invalid syntax") [], g, []).

(** [eval(code, g)] after the insertion of [__builtins__] *)
Definition evaluate (code : string) (g : env) : effect value :=
  match lex code PNone [] with
  | Some ts =>
      match parse_all ts with
      | Some e => let '(res, out) := eval_ast e g in (res, g, out)
      | None => syntax_error g
      end
  | None => syntax_error g
  end.

(** [exec(code, g)] after the insertion of [__builtins__] *)
Definition execute (code : string) (g : env) : effect unit :=
  match lex code PNone [] with
  | Some (TName x :: TAssign :: ts) =>
      match parse_all ts with
      | Some e =>
          match eval_ast e g with
          | (Ok v, out) => (Ok tt, <[x := v]> g, out)
          | (Raise e tb, out) => (Raise e tb, g, out)
          end
      | None => syntax_error g
      end
  | Some ts =>
      match parse_all ts with
      | Some e =>
          match eval_ast e g with
          | (Ok _, out) => (Ok tt, g, out)
          | (Raise e tb, out) => (Raise e tb, g, out)
          end
      | None => syntax_error g
      end
  | None => syntax_error g
  end.

(** [posixpath.split] *)
Fixpoint cut_at_last_slash (p : string) : string * string :=
  match p with
  | EmptyString => (EmptyString, EmptyString)
  | String a p' =>
      let '(head, tail) := cut_at_last_slash p' in
      if Ascii.eqb a "/"%char then (String a head, tail)
      else match head with
           | EmptyString => (EmptyString, String a tail)
           | _ => (String a head, tail)
           end
  end.

Fixpoint all_slashes (s : string) : bool :=
  match s with
  | EmptyString => true
  | String a s' => Ascii.eqb a "/"%char && all_slashes s'
  end.

Fixpoint rstrip_slashes (s : string) : string :=
  match s with
  | EmptyString => EmptyString
  | String a s' =>
      match rstrip_slashes s' with
      | EmptyString => if Ascii.eqb a "/"%char then EmptyString else String a EmptyString
      | r => String a r
      end
  end.

Definition posix_split (p : string) : string * string :=
  let '(head, tail) := cut_at_last_slash p in
  (if all_slashes head then head else rstrip_slashes head, tail).

(** The interpreter given by the definitions above; no module can be
    loaded except [m.py], which defines [answer]. *)
Definition load (path : string) : outcome env * list string :=
  if decide (path = "m.py") then (Ok (<["answer" := VInt 42]> ∅), [])
  else (Raise (OSError "No such file or directory") [], []).

Definition python : Interpreter := {|
  reserved_vars := ["async"; "await"; "data"; "match"; "case"; "where"; "nonlocal"];
  fixpath := fun p => p;
  num_added_tb_layers := 3;
  PY26 := false;
  reload := VObj "reload";
  builtins := VObj "builtins";
  eval_expr := evaluate;
  exec_stmts := execute;
  builtin_ascii := repr;
  runpy_run_path := load;
  imp_load_module := fun _ _ => (Raise (OtherException "ImportError" "no module") [], []);
  os_path_split := posix_split;
  coconut_module := ∅ |}.

(** A platform with two programs: [/bin/echo] writes its arguments and the
    text of its standard input to its output and exits with 0; [/bin/false]
    exits with 1.  [echo] and [false] resolve to them. *)
Definition to_bytes (s : string) : bytes := list_byte_of_string s.

Definition spawn (cmd : list string) : option (option string -> process) :=
  match cmd with
  | "/bin/echo" :: args =>
      Some (fun stdin =>
              Continues (to_bytes (join " " args)) []
                (Exits (to_bytes (default "" stdin)) [] 0))
  | "/bin/false" :: _ => Some (fun _ => Exits [] (to_bytes "failed") 1)
  | _ => None
  end.

Definition platform : Platform := {|
  oserror_retcode := 127;
  has_which := true;
  which := fun name =>
    if decide (name = "echo") then Some "/bin/echo"
    else if decide (name = "false") then Some "/bin/false"
    else if decide (name = "/bin/echo") then Some "/bin/echo"
    else None;
  Popen := spawn;
  get_encoding := fun _ => "utf-8";
  bytes_decode := fun _ _ raw => string_of_list_byte raw |}.

(** A freshly built session with the default termination handler and
    recording switched on, and a console nothing was written to. *)
Definition fresh : Runner := mkRunner sys_exit (@build_vars python None) (Some []).
Definition quiet : console := mkConsole [] [] [].

(** The same session with a termination handler that returns. *)
Definition embedded : Runner := mkRunner (fun _ => None) (@build_vars python None) (Some []).

(** The block [run] wraps for a fragment that fails ([y] is unbound), and
    for one that asks for termination with status 3. *)
Definition failing : M value := @run_body python "y + 1" None None true.
Definition leaving : M value := @run_body python "exit(3)" None None true.

(** Callers of [run_cmd]: each holds one list, at reference 0. *)
Definition caller (cmd : list string) : shell := mkShell {[ 0%nat := cmd ]} [].

End MiniPython.

(** ** The rest of the module *)

(** *** Encoding declarations *)

(** [s.lstrip()] *)
Fixpoint lstrip (s : string) : string :=
  match s with
  | EmptyString => EmptyString
  | String a s' => if is_space a then lstrip s' else s
  end.

(** [needle in hay] *)
Fixpoint contains (needle hay : string) : bool :=
  String.prefix needle hay ||
  match hay with
  | EmptyString => false
  | String _ hay' => contains needle hay'
  end.

(** [line.lstrip().startswith("#") and "coding" in line] *)
Definition is_encoding_line (line : string) : bool :=
  String.prefix "#" (lstrip line) && contains "coding" line.

(** The loop of [rem_encoding] over [range(min(n, len(old_lines)))]. *)
Fixpoint scan_first_lines (n : nat) (old_lines new_lines : list string) : list string :=
  match n, old_lines with
  | S n', line :: rest =>
      scan_first_lines n' rest
        (if is_encoding_line line then new_lines else new_lines ++ [line])
  | _, _ => new_lines
  end.

(** [rem_encoding(code)], given [str.splitlines]. *)
Definition rem_encoding (splitlines : string -> list string) (code : string) : string :=
  let old_lines := splitlines code in
  let new_lines := scan_first_lines 2 old_lines [] in
  join nl (new_lines ++ drop 2 old_lines).

(** *** The stub path of mypy *)

(** What [set_mypy_path] takes from the installation: constants of
    [coconut.constants], [os.pathsep], and whether [symlink(link_to,
    link_from)] returns or raises (what it does to the file system is not
    part of this state). *)
Class Installation : Type := {
  mypy_path_env_var : string;
  base_stub_dir : string;
  installed_stub_dir : string;
  pathsep : string;
  symlink : string -> string -> option (exn * traceback) }.

(** [set_mypy_path()] on [os.environ]; the call of [logger.log_func] is not
    modelled. *)
Definition set_mypy_path `{Installation} (environ : gmap string string)
    : outcome unit * gmap string string :=
  match symlink base_stub_dir installed_stub_dir with
  | Some (e, tb) => (Raise e tb, environ)
  | None =>
      let new_mypy_path :=
        match environ !! mypy_path_env_var with
        | None => Some installed_stub_dir
        | Some original =>
            if negb (String.prefix installed_stub_dir original)
            then Some (installed_stub_dir +:+ pathsep +:+ original)
            else None
        end in
      match new_mypy_path with
      | Some path => (Ok tt, <[mypy_path_env_var := path]> environ)
      | None => (Ok tt, environ)
      end
  end.

(** *** The prompt *)

(** The attribute of a [Prompt] that [set_style] assigns. *)
Record Prompt : Type := mkPrompt {
  style : option string }.

(** Whether [prompt_toolkit] was imported, and
    [pygments.styles.get_all_styles()]. *)
Class Highlighting : Type := {
  prompt_toolkit : bool;
  get_all_styles : list string }.

(** [Prompt.set_style(style)]: the result, the prompt and what was
    printed. *)
Definition set_style `{Highlighting} (new_style : string) (self : Prompt)
    : outcome unit * Prompt * list string :=
  if decide (new_style = "none") then (Ok tt, mkPrompt None, [])
  else if negb prompt_toolkit then
    (Raise (OtherException "CoconutException"
              "syntax highlighting is not supported on this Python version") [],
     self, [])
  else if decide (new_style = "list") then
    (Raise (SystemExit (VInt 0)) [], self,
     ["Coconut Styles: none, " +:+ join ", " get_all_styles])
  else if decide (new_style ∈ get_all_styles) then (Ok tt, mkPrompt (Some new_style), [])
  else (Raise (OtherException "CoconutException" "unrecognized pygments style") [], self, []).

(** *** Exporting the namespace of a runner *)

(** [del d[name]] for each name in turn; a name that is not bound raises
    [KeyError]. *)
Fixpoint del_vars (d : env) (names : list string) : outcome env :=
  match names with
  | [] => Ok d
  | name :: rest =>
      match d !! name with
      | Some _ => del_vars (delete name d) rest
      | None => Raise (OtherException "KeyError" name) []
      end
  end.

(** [Runner.update_vars(global_vars, ignore_vars)]: the result and
    [global_vars] afterwards.  An empty [ignore_vars] stands for every falsy
    argument, [None] included. *)
Definition update_vars (global_vars : env) (ignore_vars : list string) (self : Runner)
    : outcome unit * env :=
  match ignore_vars with
  | [] => (Ok tt, update global_vars (vars self))
  | _ =>
      match del_vars (vars self) ignore_vars with
      | Ok update_vars => (Ok tt, update global_vars update_vars)
      | Raise e tb => (Raise e tb, global_vars)
      end
  end.

(** *** More concrete data *)
Module Samples.

(** A platform like [MiniPython.platform] on a Python without
    [shutil.which]. *)
Definition legacy : Platform := {|
  oserror_retcode := 127;
  has_which := false;
  which := fun _ => None;
  Popen := MiniPython.spawn;
  get_encoding := fun _ => "utf-8";
  bytes_decode := fun _ _ raw => string_of_list_byte raw |}.

Definition installation : Installation := {|
  mypy_path_env_var := "MYPYPATH";
  base_stub_dir := "/coconut/stubs";
  installed_stub_dir := "/home/.coconut_stubs";
  pathsep := ":";
  symlink := fun _ _ => None |}.

Definition highlighting : Highlighting := {|
  prompt_toolkit := true;
  get_all_styles := ["default"; "monokai"; "vim"] |}.

(** Lines are separated by line feeds only. *)
Fixpoint lines_from (current : string) (s : string) : list string :=
  match s with
  | EmptyString => match current with EmptyString => [] | _ => [current] end
  | String a s' =>
      if Ascii.eqb a "010"%char then current :: lines_from EmptyString s'
      else lines_from (current +:+ String a EmptyString) s'
  end.

Definition splitlines (s : string) : list string := lines_from EmptyString s.

(** A compiler whose header sets [x] and whose package header is a
    comment. *)
Definition getheader (which_header : string) : string :=
  if decide (which_header = "code") then "x = 1" else "# header".

(** A runner that does not record, and one that has recorded two lines. *)
Definition silent : Runner :=
  mkRunner sys_exit (@build_vars MiniPython.python None) None.
Definition recorded : Runner :=
  mkRunner sys_exit (@build_vars MiniPython.python None) (Some ["a = 1"; "b = 2"]).

(** The small Python with one more module, at a path without extension. *)
Definition load (path : string) : outcome env * list string :=
  if decide (path = "script") then (Ok (<["answer" := VInt 42]> ∅), [])
  else MiniPython.load path.

Definition scripts : Interpreter := {|
  reserved_vars := @reserved_vars MiniPython.python;
  fixpath := fun p => p;
  num_added_tb_layers := 3;
  PY26 := false;
  reload := VObj "reload";
  builtins := VObj "builtins";
  eval_expr := MiniPython.evaluate;
  exec_stmts := MiniPython.execute;
  builtin_ascii := MiniPython.repr;
  runpy_run_path := load;
  imp_load_module := fun _ _ => (Raise (OtherException "ImportError" "no module") [], []);
  os_path_split := MiniPython.posix_split;
  coconut_module := ∅ |}.

(** A namespace to export into. *)
Definition target : env := <["data" := VInt 5]> (<["y" := VInt 1]> ∅).

End Samples.

(** * Properties *)

(** ** Strings *)

Lemma append_empty_r (s : string) : s +:+ "" = s.
Proof.
  induction s as [|a s IH]; [reflexivity|].
  change (String a (s +:+ "") = String a s). by rewrite IH.
Qed.

Lemma append_associative (s t u : string) : (s +:+ t) +:+ u = s +:+ (t +:+ u).
Proof.
  induction s as [|a s IH]; [reflexivity|].
  change (String a ((s +:+ t) +:+ u) = String a (s +:+ (t +:+ u))). by rewrite IH.
Qed.

Lemma join_empty_cons (p : string) (rest : list string) :
  join "" (p :: rest) = p +:+ join "" rest.
Proof. destruct rest; cbn [join]; [by rewrite append_empty_r | reflexivity]. Qed.

Lemma join_empty_app (l1 l2 : list string) :
  join "" (l1 ++ l2) = join "" l1 +:+ join "" l2.
Proof.
  induction l1 as [|p l1 IH]; [reflexivity|].
  change ((p :: l1) ++ l2) with (p :: (l1 ++ l2)).
  by rewrite !join_empty_cons, IH, append_associative.
Qed.

(** ** Console commands *)

Section SubprocessProperties.

Context {platform : Platform}.

(** The loop appends one decoded chunk per round to each stream, in the
    order of the rounds, and ends with the exit status of the child. *)
Lemma communicate_loop_chunks (p : process) (stdin : option string) (enc : string)
    (out err : list string) (lg : list log_event) :
  exists lg',
    communicate_loop p stdin enc out err lg =
      (out ++ map (decode_chunk Stdout enc) (stdout_chunks p),
       err ++ map (decode_chunk Stderr enc) (stderr_chunks p),
       wait p, lg').
Proof.
  revert stdin out err lg.
  induction p as [raw_out raw_err retcode | raw_out raw_err next IH]; intros stdin out err lg.
  - simpl. eexists. reflexivity.
  - simpl. edestruct IH as [lg' ->]. exists lg'.
    by rewrite <- !app_assoc.
Qed.

(** The [try] block never touches the caller's lists. *)
Lemma run_cmd_try_lists (cmd_ref : loc) (cmd : list string) (show_output raise_errs : bool)
    (stdin : option string) (sh : shell) :
  lists (run_cmd_try cmd_ref cmd show_output raise_errs stdin sh).2 = lists sh.
Proof.
  unfold run_cmd_try, subprocess_check_call, subprocess_call, call_output.
  destruct (start_process cmd) as [child|e tb];
    destruct show_output, raise_errs, stdin as [text|]; simpl; try reflexivity.
  all: try (by destruct (decide (wait (child None) = 0%Z))).
  all: match goal with |- context [communicate_loop ?p ?i ?e ?o ?r ?l] =>
         destruct (communicate_loop_chunks p i e o r l) as [lg' ->] end; simpl.
  all: rewrite ?andb_false_r, ?andb_true_r; simpl; try reflexivity.
  all: match goal with |- context [negb ?b] => by destruct (negb b) end.
Qed.


(** The command [run_cmd] logs and launches is the resolved one. *)
Lemma run_cmd_unfold (cmd : loc) (show_output raise_errs : bool) (stdin : option string)
    (sh : shell) (cmd0 : string) (args : list string) :
  lists sh !! cmd = Some (cmd0 :: args) ->
  run_cmd cmd show_output raise_errs stdin sh =
    let sh1 :=
      if has_which then mkShell (<[cmd := resolved cmd0 args]> (lists sh)) (logged sh)
      else sh in
    match run_cmd_try cmd (resolved cmd0 args) show_output raise_errs stdin
            (log (log_cmd (resolved cmd0 args)) sh1) with
    | (Raise (OSError _) _, sh3) =>
        let sh4 := log log_exc sh3 in
        if raise_errs then (Raise (CalledProcessError oserror_retcode cmd None) [], sh4)
        else if show_output then (Ok (VInt oserror_retcode), sh4)
        else (Ok (VStr ""), sh4)
    | res => res
    end.
Proof.
  intros Hcmd. unfold run_cmd, resolved. rewrite Hcmd.
  destruct has_which; reflexivity.
Qed.


(** C7: for a non-empty command whose process starts, [run_cmd] with
    [show_output=False] and [raise_errs=False] returns, without raising, the
    decoded chunks of standard output followed by the decoded chunks of
    standard error, each stream in the order of the rounds.  This holds
    whatever the exit status is, so in particular when the process exits
    with status 0. *)
Theorem run_cmd_captured_output (cmd : loc) (sh : shell) (cmd0 : string) (args : list string)
    (stdin : option string) (child : option string -> process) :
  lists sh !! cmd = Some (cmd0 :: args) ->
  Popen (resolved cmd0 args) = Some child ->
  (run_cmd cmd false false stdin sh).1 =
    Ok (VStr (join "" (map (decode_chunk Stdout "replace") (stdout_chunks (child stdin)))
              +:+ join "" (map (decode_chunk Stderr "replace") (stderr_chunks (child stdin))))).
Proof.
  intros Hcmd Hlaunch.
  rewrite (run_cmd_unfold _ _ _ _ _ _ _ Hcmd); cbv zeta.
  unfold run_cmd_try, call_output. simpl. rewrite Hlaunch.
  match goal with |- context [communicate_loop ?p ?i ?e ?o ?r ?l] =>
    destruct (communicate_loop_chunks p i e o r l) as [lg' ->] end.
  rewrite andb_false_r. simpl. by rewrite join_empty_app.
Qed.

(** C10: when [shutil.which] exists, every call of [run_cmd] on a non-empty
    list leaves the caller's list with its first element replaced by the
    path [which] found (unchanged when it found none) and touches no other
    list; the caller sees a different list whenever the path found differs
    from the name it passed. *)
Theorem run_cmd_mutates_caller_list (cmd : loc) (sh : shell) (cmd0 : string)
    (args : list string) (show_output raise_errs : bool) (stdin : option string) :
  has_which = true ->
  lists sh !! cmd = Some (cmd0 :: args) ->
  let after := lists (run_cmd cmd show_output raise_errs stdin sh).2 in
  after = <[cmd := or_else (which cmd0) cmd0 :: args]> (lists sh) /\
  (forall p, which cmd0 = Some p -> p <> "" -> after !! cmd = Some (p :: args)) /\
  (which cmd0 = None -> after !! cmd = Some (cmd0 :: args)) /\
  (forall p, which cmd0 = Some p -> p <> "" -> p <> cmd0 -> after !! cmd <> lists sh !! cmd).
Proof.
  intros Hwhich Hcmd after.
  assert (Hafter : after = <[cmd := or_else (which cmd0) cmd0 :: args]> (lists sh)).
  { subst after. rewrite (run_cmd_unfold _ _ _ _ _ _ _ Hcmd); cbv zeta.
    unfold resolved. rewrite Hwhich.
    match goal with |- context [run_cmd_try ?c ?l ?s ?r ?i ?h] =>
      pose proof (run_cmd_try_lists c l s r i h) as Hkeep;
      destruct (run_cmd_try c l s r i h) as [[v|e tb] sh3] end;
      simpl in Hkeep |- *; [exact Hkeep|].
    destruct e; try exact Hkeep.
    destruct raise_errs; [|destruct show_output]; exact Hkeep. }
  split; [exact Hafter|]. rewrite Hafter, lookup_insert_eq, Hcmd.
  repeat split.
  - intros p -> Hp. simpl. by destruct (decide (p = "")).
  - by intros ->.
  - intros p -> Hp Hne. simpl. destruct (decide (p = "")); congruence.
Qed.

End SubprocessProperties.

(** ** The runner *)

Section ExecutionProperties.

Context {python : Interpreter}.

(** *** Failure isolation *)

(** What [handling_errors] does with a body that returns. *)
Lemma handling_errors_returns {A : Type} (all_errors_exit : bool) (body : M A)
    (self self1 : Runner) (con con1 : console) (a : A) :
  body self con = (Ok a, self1, con1) ->
  handling_errors all_errors_exit body self con = (Ok (Some a), self1, con1).
Proof. intros Hbody. unfold handling_errors. by rewrite Hbody. Qed.

(** What [handling_errors] does with a body that raises [SystemExit]. *)
Lemma handling_errors_system_exit {A : Type} (all_errors_exit : bool) (body : M A)
    (self self1 : Runner) (con con1 : console) (code : value) (tb : traceback) :
  body self con = (Raise (SystemExit code) tb, self1, con1) ->
  handling_errors all_errors_exit body self con = call_exit code self1 con1.
Proof. intros Hbody. unfold handling_errors. by rewrite Hbody. Qed.

(** What [handling_errors] does with a body that raises anything else. *)
Lemma handling_errors_failure {A : Type} (all_errors_exit : bool) (body : M A)
    (self self1 : Runner) (con con1 : console) (e : exn) (tb : traceback) :
  body self con = (Raise e tb, self1, con1) ->
  is_SystemExit e = false ->
  handling_errors all_errors_exit body self con =
    let con2 := print_exception e (strip_layers num_added_tb_layers tb) con1 in
    if all_errors_exit then call_exit (VInt 1) self1 con2 else (Ok None, self1, con2).
Proof.
  intros Hbody He. unfold handling_errors. rewrite Hbody.
  destruct e; try reflexivity. discriminate He.
Qed.

(** The handler is called once by [call_exit], with the code it is given. *)
Lemma call_exit_calls {A : Type} (code : value) (self : Runner) (con : console) :
  exit_calls (@call_exit A code self con).2 = exit_calls con ++ [code] /\
  stderr (@call_exit A code self con).2 = stderr con /\
  stdout (@call_exit A code self con).2 = stdout con /\
  (@call_exit A code self con).1.2 = self.
Proof. unfold call_exit. destruct (exit self code) as [[e tb]|]; repeat split. Qed.

(** [Runner.run] returns whenever its fragment raises nothing that asks
    for termination and no failure is escalated. *)
Lemma run_isolated (code : string) (use_eval : option bool) (path : option string)
    (store_ : bool) (self : Runner) (con : console) :
  (forall c tb, (run_func use_eval code (run_namespace path self)).1.1 <> Raise (SystemExit c) tb) ->
  exists v, (run code use_eval path false store_ self con).1.1 = Ok v.
Proof.
  intros Hquiet. unfold run, handling_errors, run_body.
  destruct path as [p|]; simpl in Hquiet.
  - destruct (run_func use_eval code (build_vars (Some p))) as [[[v|e tb] g] out];
      simpl in *; [by eexists|].
    destruct e; try by eexists. by destruct (Hquiet code0 tb).
  - destruct (run_func use_eval code (vars self)) as [[[v|e tb] g] out];
      simpl in *; [by eexists|].
    destruct e; try by eexists. by destruct (Hquiet code0 tb).
Qed.

(** C3: when the wrapped action raises a failure other than [SystemExit],
    [handling_errors] with [all_errors_exit=False] returns instead of raising,
    without calling the termination handler, and a later [run] on the same
    runner returns as well (for every fragment that does not itself ask for
    termination). *)
Theorem handling_errors_isolates {A : Type} (body : M A) (self self1 : Runner)
    (con con1 : console) (e : exn) (tb : traceback) :
  body self con = (Raise e tb, self1, con1) ->
  is_SystemExit e = false ->
  exists con2,
    handling_errors false body self con = (Ok None, self1, con2) /\
    exit_calls con2 = exit_calls con1 /\
    forall code use_eval path store_,
      (forall c tb', (run_func use_eval code (run_namespace path self1)).1.1
                     <> Raise (SystemExit c) tb') ->
      exists v, (run code use_eval path false store_ self1 con2).1.1 = Ok v.
Proof.
  intros Hbody He.
  exists (print_exception e (strip_layers num_added_tb_layers tb) con1).
  split; [|split].
  - by rewrite (handling_errors_failure _ _ _ _ _ _ _ _ Hbody He).
  - reflexivity.
  - intros code use_eval path store_ Hquiet. by apply run_isolated.
Qed.

(** C4: with [all_errors_exit=True], [handling_errors] calls the
    termination handler exactly once, with status 1, when the wrapped action
    raises a failure other than [SystemExit], and does not call it when the
    action returns. *)
Theorem handling_errors_escalates {A : Type} (body : M A) (self self1 : Runner)
    (con con1 : console) (res : outcome A) :
  body self con = (res, self1, con1) ->
  let calls := exit_calls (handling_errors true body self con).2 in
  (forall e tb, res = Raise e tb -> is_SystemExit e = false ->
     exists status, status <> 0%Z /\ calls = exit_calls con1 ++ [VInt status]) /\
  (forall a, res = Ok a -> calls = exit_calls con1).
Proof.
  intros Hbody calls. split.
  - intros e tb -> He. exists 1%Z. split; [discriminate|].
    subst calls. rewrite (handling_errors_failure _ _ _ _ _ _ _ _ Hbody He).
    cbv zeta. simpl. by destruct (call_exit_calls (A:=A) (VInt 1) self1
      (print_exception e (strip_layers num_added_tb_layers tb) con1)) as [-> _].
  - intros a ->. subst calls. by rewrite (handling_errors_returns _ _ _ _ _ _ _ Hbody).
Qed.

(** C5: when the wrapped action raises [SystemExit] with some code,
    [handling_errors] passes exactly that code to the termination handler, in
    one call, prints no exception, and does so whatever [all_errors_exit]
    is. *)
Theorem handling_errors_forwards_exit_code {A : Type} (all_errors_exit : bool) (body : M A)
    (self self1 : Runner) (con con1 : console) (code : value) (tb : traceback) :
  body self con = (Raise (SystemExit code) tb, self1, con1) ->
  let con2 := (handling_errors all_errors_exit body self con).2 in
  exit_calls con2 = exit_calls con1 ++ [code] /\
  stderr con2 = stderr con1 /\
  stdout con2 = stdout con1.
Proof.
  intros Hbody con2. subst con2.
  rewrite (handling_errors_system_exit _ _ _ _ _ _ _ _ Hbody).
  destruct (call_exit_calls (A:=A) code self1 con1) as (-> & -> & -> & _). done.
Qed.

(** *** The initial namespace *)

(** Binding every reserved name to [None] hides what was bound before and
    touches nothing else. *)
Lemma reserve_lookup (names : list string) (init_vars : env) (x : string) :
  foldl (fun d var => <[var := VNone]> d) init_vars names !! x =
    if decide (x ∈ names) then Some VNone else init_vars !! x.
Proof.
  revert init_vars. induction names as [|name names IH]; intros init_vars; simpl.
  - destruct (decide (x ∈ [])) as [Hin|_]; [by apply elem_of_nil in Hin | reflexivity].
  - rewrite IH. destruct (decide (x ∈ names)) as [Hin|Hout].
    + rewrite decide_True; [reflexivity | by apply elem_of_cons; right].
    + destruct (decide (name = x)) as [->|Hne].
      * rewrite lookup_insert_eq. rewrite decide_True; [reflexivity | by apply elem_of_cons; left].
      * rewrite lookup_insert_ne by done.
        rewrite decide_False; [reflexivity|].
        intros [->|Hin]%elem_of_cons; done.
Qed.

(** A namespace built for a path holds the fixed path under [__file__]. *)
Lemma build_vars_file (p : string) :
  "__file__" ∉ reserved_vars ->
  build_vars (Some p) !! "__file__" = Some (VStr (fixpath p)).
Proof.
  intros Hfree. unfold build_vars. rewrite reserve_lookup, decide_False by done.
  apply lookup_insert_eq.
Qed.

(** A freshly built namespace does not bind [__builtins__]. *)
Lemma build_vars_no_builtins (path : option string) :
  "__builtins__" ∉ reserved_vars ->
  build_vars path !! "__builtins__" = None.
Proof.
  intros Hfree. unfold build_vars. rewrite reserve_lookup, decide_False by done.
  destruct path; by simplify_map_eq.
Qed.

(** Without a compiler, [Runner] only builds its namespace. *)
Lemma Runner_init_plain (exit_ : value -> option (exn * traceback)) (store_ : bool)
    (path : option string) (con : console) :
  Runner_init None exit_ store_ path con =
    (Ok (mkRunner exit_ (build_vars path) (if store_ then Some [] else None)), con).
Proof. reflexivity. Qed.

(** *** Evaluation or execution *)

(** C1, as the code has it: when the evaluation of the fragment succeeds and
    yields [None], [interpret] prints nothing and returns without executing
    the fragment as statements: what it leaves behind is exactly what the
    evaluation left behind. *)
Theorem interpret_none_returns (code : string) (in_vars g : env) (out : list string) :
  builtin_eval code in_vars = (Ok VNone, g, out) ->
  interpret code in_vars = (Ok VNone, g, out).
Proof. intros Heval. unfold interpret. by rewrite Heval. Qed.

(** [eval] and [exec] add at most the name [__builtins__]. *)
Lemma with_builtins_dom (g : env) :
  dom (with_builtins g) = dom g ∪ {["__builtins__"]}.
Proof.
  unfold with_builtins. destruct (g !! "__builtins__") as [v|] eqn:Hg.
  - assert (Hbound : "__builtins__" ∈ dom g) by (apply elem_of_dom; eauto).
    apply set_eq. intros x. rewrite elem_of_union, elem_of_singleton.
    split; [tauto | by intros [Hx | ->]].
  - rewrite dom_insert_L. apply set_eq. intros x.
    rewrite !elem_of_union, elem_of_singleton. tauto.
Qed.

(** C2, as the code has it: on a freshly built runner, [run("2 + 2")]
    prints [4] and binds no name but [__builtins__], which [eval] inserts;
    [run("x = 2 + 2")] prints nothing and leaves [x] bound to [4].  The
    hypotheses say what Python does with the two fragments. *)
Theorem run_expression_and_assignment (exit_ : value -> option (exn * traceback))
    (store_ : bool) (path : option string) (con : console) :
  (forall g, eval_expr "2 + 2" g = (Ok (VInt 4), g, [])) ->
  builtin_ascii (VInt 4) = "4" ->
  (forall g, exists msg tb, eval_expr "x = 2 + 2" g = (Raise (SyntaxError msg) tb, g, [])) ->
  (forall g, exec_stmts "x = 2 + 2" g = (Ok tt, <["x" := VInt 4]> g, [])) ->
  let self := mkRunner exit_ (build_vars path) (if store_ then Some [] else None) in
  (exists self' con',
     run "2 + 2" None None false true self con = (Ok VNone, self', con') /\
     stdout con' = stdout con ++ ["4"] /\
     vars self' = with_builtins (vars self) /\
     dom (vars self') = dom (vars self) ∪ {["__builtins__"]}) /\
  (exists self' con',
     run "x = 2 + 2" None None false true self con = (Ok VNone, self', con') /\
     stdout con' = stdout con /\
     vars self' !! "x" = Some (VInt 4)).
Proof.
  intros Hsum Hascii Hsyntax Hassign self. subst self. split.
  - eexists _, _. split; [|split; [|split]].
    + unfold run, handling_errors, run_body, run_func, interpret, builtin_eval.
      rewrite Hsum. simpl. reflexivity.
    + simpl. by rewrite Hascii.
    + by destruct store_.
    + destruct store_; apply with_builtins_dom.
  - destruct (Hsyntax (with_builtins (build_vars path))) as (msg & tb & Hstx).
    eexists _, _. split; [|split].
    + unfold run, handling_errors, run_body, run_func, interpret, builtin_eval.
      cbn [vars]. rewrite Hstx. unfold exec_func, builtin_exec. rewrite Hassign. simpl. reflexivity.
    + simpl. by rewrite app_nil_r.
    + destruct store_; apply lookup_insert_eq.
Qed.

(** *** Path-scoped runs *)

(** Recording a line leaves the namespace alone. *)
Lemma store_vars (line : string) (self : Runner) : vars (store line self) = vars self.
Proof. unfold store. by destruct (stored self). Qed.

(** C8: whenever [run] is given a path, the fragment runs against the
    namespace [build_vars(path)] builds, not against the one of the runner,
    and whatever happens (the fragment returns, fails or asks for
    termination, the handler returns or raises) the bindings of that
    namespace are merged into the namespace of the runner. *)
Theorem run_with_path_merges (code : string) (use_eval : option bool) (p : string)
    (all_errors_exit store_ : bool) (self : Runner) (con : console) :
  let use_vars := (run_func use_eval code (build_vars (Some p))).1.2 in
  let self' := (run code use_eval (Some p) all_errors_exit store_ self con).1.2 in
  vars self' = update (vars self) use_vars /\
  (forall x v, use_vars !! x = Some v -> vars self' !! x = Some v) /\
  (forall x, use_vars !! x = None -> vars self' !! x = vars self !! x).
Proof.
  intros use_vars self'.
  assert (Hvars : vars self' = update (vars self) use_vars).
  { subst self' use_vars. unfold run, handling_errors, run_body.
    destruct (run_func use_eval code (build_vars (Some p))) as [[[v|e tb] g] out]; simpl.
    - destruct store_; [by rewrite store_vars | reflexivity].
    - destruct e; simpl; unfold call_exit; simpl;
        repeat match goal with
               | |- context [exit ?s ?c] => destruct (exit s c) as [[? ?]|]
               | |- context [if ?b then _ else _] => destruct b
               end; reflexivity. }
  split; [exact Hvars|]. rewrite Hvars. unfold update. split.
  - intros x v Hx. by apply lookup_union_Some_l.
  - intros x Hx. by apply lookup_union_r.
Qed.

(** *** The transcript *)

(** A call appends to the transcript exactly the entry it records. *)
Lemma perform_stored (c : call) (self : Runner) (con : console) (lines : list string) :
  stored self = Some lines ->
  stored (perform c self con).1 = Some (lines ++ run_fragment c self ++ import_line c).
Proof.
  intros Hstored. destruct c as [code use_eval path all_errors_exit store_ | path all_errors_exit].
  - unfold perform, run, handling_errors, run_body, run_fragment, runs_cleanly, import_line.
    rewrite app_nil_r.
    assert (Hns : match path with
                  | None => run_func use_eval code (vars self)
                  | Some p => run_func use_eval code (build_vars (Some p))
                  end = run_func use_eval code (run_namespace path self))
      by (by destruct path).
    destruct path as [p|]; simpl run_namespace.
    all: match goal with |- context [run_func ?u ?c ?g] =>
           destruct (run_func u c g) as [[[v|e tb] g'] out] end; simpl.
    all: unfold store, call_exit; simpl; rewrite ?Hstored.
    all: try (destruct store_; simpl; by rewrite ?app_nil_r).
    all: rewrite andb_false_r, app_nil_r.
    all: destruct e; simpl;
           repeat match goal with
                  | |- context [exit ?s ?c] => destruct (exit s c) as [[? ?]|]
                  | |- context [if ?b then _ else _] => destruct b
                  end; simpl; exact Hstored.
  - unfold perform, Runner_run_file, handling_errors, run_fragment, import_line.
    simpl app.
    destruct (run_file (fixpath path)) as [[module_vars|e tb] out].
    + destruct (splitname (fixpath path)) as [[[dirpath name] exts]|e tb]; simpl.
      * unfold store. simpl. by rewrite Hstored.
      * rewrite app_nil_r.
        destruct e; simpl; unfold call_exit; simpl;
          repeat match goal with
                 | |- context [exit ?s ?c] => destruct (exit s c) as [[? ?]|]
                 | |- context [if ?b then _ else _] => destruct b
                 end; simpl; exact Hstored.
    + rewrite app_nil_r.
      destruct e; simpl; unfold call_exit; simpl;
        repeat match goal with
               | |- context [exit ?s ?c] => destruct (exit s c) as [[? ?]|]
               | |- context [if ?b then _ else _] => destruct b
               end; simpl; exact Hstored.
Qed.

(** Along a sequence of calls the transcript grows by the recorded
    entries, in the order of the calls. *)
Lemma perform_all_stored (cs : list call) (self : Runner) (con : console)
    (lines : list string) :
  stored self = Some lines ->
  stored (perform_all cs self con).1 = Some (lines ++ entries cs self con).
Proof.
  revert self con lines.
  induction cs as [|c cs IH]; intros self con lines Hstored; simpl.
  - by rewrite app_nil_r.
  - pose proof (perform_stored c self con lines Hstored) as Hstep.
    destruct (perform c self con) as [self' con']; simpl in Hstep.
    rewrite (IH self' con' _ Hstep). by rewrite <- !app_assoc.
Qed.

(** Collapsing the transcript returns the joined lines and keeps only
    them. *)
Lemma was_run_code_collapse (self : Runner) (lines : list string) :
  stored self = Some lines ->
  was_run_code true self =
    (Ok (join nl lines), mkRunner (exit self) (vars self) (Some [join nl lines])).
Proof. intros Hstored. unfold was_run_code. by rewrite Hstored. Qed.

(** C9, as the code has it: on a runner that records, after any sequence of
    [run] and [run_file] calls, [was_run_code(get_all=True)] called twice in
    a row returns the same string both times: the lines the transcript held
    before the calls and the entries recorded by them (the fragments recorded
    by [run] and the import lines recorded by [run_file]), in order, joined
    by line feeds. *)
Theorem was_run_code_twice (cs : list call) (self : Runner) (con : console)
    (lines : list string) :
  stored self = Some lines ->
  let self1 := (perform_all cs self con).1 in
  let transcript := join nl (lines ++ entries cs self con) in
  (was_run_code true self1).1 = Ok transcript /\
  (was_run_code true (was_run_code true self1).2).1 = Ok transcript.
Proof.
  intros Hstored self1 transcript.
  pose proof (perform_all_stored cs self con lines Hstored) as Hall.
  fold self1 in Hall.
  rewrite (was_run_code_collapse self1 _ Hall). split; reflexivity.
Qed.

End ExecutionProperties.

(** ** Console commands, continued *)

Section SubprocessBehaviour.

Context {platform : Platform}.



(** The lists of the caller after [run_cmd], on every path. *)
Lemma run_cmd_lists (cmd : loc) (show_output raise_errs : bool) (stdin : option string)
    (sh : shell) :
  lists (run_cmd cmd show_output raise_errs stdin sh).2 =
    match lists sh !! cmd with
    | Some (cmd0 :: args) =>
        if has_which then <[cmd := resolved cmd0 args]> (lists sh) else lists sh
    | _ => lists sh
    end.
Proof.
  destruct (lists sh !! cmd) as [[|cmd0 args]|] eqn:Hcmd;
    try (unfold run_cmd; by rewrite Hcmd).
  rewrite (run_cmd_unfold _ _ _ _ _ _ _ Hcmd); cbv zeta.
  match goal with |- context [run_cmd_try ?c ?l ?s ?r ?i ?h] =>
    pose proof (run_cmd_try_lists c l s r i h) as Hkeep;
    destruct (run_cmd_try c l s r i h) as [[v|e tb] sh3] end;
    simpl in Hkeep |- *.
  - rewrite Hkeep. by destruct has_which.
  - assert (Hgoal : lists sh3 =
              if has_which then <[cmd:=resolved cmd0 args]> (lists sh) else lists sh)
      by (rewrite Hkeep; by destruct has_which).
    destruct e; try exact Hgoal.
    destruct raise_errs; [|destruct show_output]; exact Hgoal.
Qed.

(** The outcome of [run_cmd] when the output is captured and the program
    starts. *)
Lemma run_cmd_capture_result (cmd : loc) (sh : shell) (cmd0 : string) (args : list string)
    (raise_errs : bool) (stdin : option string) (child : option string -> process) :
  lists sh !! cmd = Some (cmd0 :: args) ->
  Popen (resolved cmd0 args) = Some child ->
  let output :=
    join "" (map (decode_chunk Stdout "replace") (stdout_chunks (child stdin)))
    +:+ join "" (map (decode_chunk Stderr "replace") (stderr_chunks (child stdin))) in
  (run_cmd cmd false raise_errs stdin sh).1 =
    if negb (wait (child stdin) =? 0)%Z && raise_errs
    then Raise (CalledProcessError (wait (child stdin)) cmd (Some output)) []
    else Ok (VStr output).
Proof.
  intros Hcmd Hlaunch output. subst output.
  rewrite (run_cmd_unfold _ _ _ _ _ _ _ Hcmd); cbv zeta.
  unfold run_cmd_try, call_output. simpl. rewrite Hlaunch.
  match goal with |- context [communicate_loop ?p ?i ?e ?o ?r ?l] =>
    destruct (communicate_loop_chunks p i e o r l) as [lg' ->] end.
  destruct (negb (wait (child stdin) =? 0)%Z && raise_errs); simpl;
    by rewrite join_empty_app.
Qed.



(** X1: a command that is the empty list, or not a list at all, is
    rejected with [CoconutInternalException] before anything is resolved,
    logged or launched. *)
Theorem run_cmd_rejects_empty_list (cmd : loc) (show_output raise_errs : bool)
    (stdin : option string) (sh : shell) :
  lists sh !! cmd = None \/ lists sh !! cmd = Some [] ->
  exists msg,
    run_cmd cmd show_output raise_errs stdin sh = (Raise (CoconutInternalException msg) [], sh).
Proof. intros [Hcmd|Hcmd]; unfold run_cmd; rewrite Hcmd; by eexists. Qed.


(** X3: when the output is shown, no text is passed under [stdin] and the
    program starts, [run_cmd] returns the exit status if [raise_errs=False];
    if [raise_errs=True] it returns 0 for a status of 0 and raises
    [CalledProcessError] with the status, the caller's list and no output
    otherwise. *)
Theorem run_cmd_shown_status (cmd : loc) (sh : shell) (cmd0 : string) (args : list string)
    (child : option string -> process) :
  lists sh !! cmd = Some (cmd0 :: args) ->
  Popen (resolved cmd0 args) = Some child ->
  (run_cmd cmd true false None sh).1 = Ok (VInt (wait (child None))) /\
  (wait (child None) = 0%Z -> (run_cmd cmd true true None sh).1 = Ok (VInt 0)) /\
  (wait (child None) <> 0%Z ->
     (run_cmd cmd true true None sh).1 =
       Raise (CalledProcessError (wait (child None)) cmd None) []).
Proof.
  intros Hcmd Hlaunch. repeat split; intros;
    rewrite (run_cmd_unfold _ _ _ _ _ _ _ Hcmd); cbv zeta;
    unfold run_cmd_try, subprocess_check_call, subprocess_call, start_process, resolved in *;
    simpl; rewrite Hlaunch.
  - reflexivity.
  - by rewrite decide_True.
  - by rewrite decide_False.
Qed.

(** X4: when the output is captured and the program starts,
    [raise_errs=True] changes nothing for an exit status of 0, and for any
    other status raises [CalledProcessError] carrying the status and the very
    string that [raise_errs=False] returns. *)
Theorem run_cmd_captured_failure (cmd : loc) (sh : shell) (cmd0 : string)
    (args : list string) (stdin : option string) (child : option string -> process) :
  lists sh !! cmd = Some (cmd0 :: args) ->
  Popen (resolved cmd0 args) = Some child ->
  exists output,
    (run_cmd cmd false false stdin sh).1 = Ok (VStr output) /\
    (wait (child stdin) = 0%Z -> (run_cmd cmd false true stdin sh).1 = Ok (VStr output)) /\
    (wait (child stdin) <> 0%Z ->
       (run_cmd cmd false true stdin sh).1 =
         Raise (CalledProcessError (wait (child stdin)) cmd (Some output)) []).
Proof.
  intros Hcmd Hlaunch. eexists.
  rewrite !(run_cmd_capture_result _ _ _ _ _ stdin child Hcmd Hlaunch); cbv zeta.
  rewrite andb_false_r. split; [reflexivity|].
  split; intros Hstatus.
  - by rewrite Hstatus.
  - apply Z.eqb_neq in Hstatus. by rewrite Hstatus.
Qed.

(** X5: [run_cmd] never touches a list other than the one it is given,
    and on a Python without [shutil.which] it touches no list at all; this
    holds on every path, raising ones included. *)
Theorem run_cmd_leaves_other_lists (cmd other : loc) (show_output raise_errs : bool)
    (stdin : option string) (sh : shell) :
  (other <> cmd ->
     lists (run_cmd cmd show_output raise_errs stdin sh).2 !! other = lists sh !! other) /\
  (has_which = false -> lists (run_cmd cmd show_output raise_errs stdin sh).2 = lists sh).
Proof.
  rewrite run_cmd_lists. split.
  - intros Hother. destruct (lists sh !! cmd) as [[|cmd0 args]|]; try reflexivity.
    destruct has_which; [by rewrite lookup_insert_ne | reflexivity].
  - intros ->. by destruct (lists sh !! cmd) as [[|cmd0 args]|].
Qed.


End SubprocessBehaviour.

(** ** The runner, continued *)

(** Case analysis on what the termination handler does and on flags. *)
Ltac handler_cases :=
  repeat match goal with
         | |- context [exit ?s ?c] => destruct (exit s c) as [[? ?]|]
         | |- context [if ?b then _ else _] => destruct b
         end.

Section ExecutionBehaviour.

Context {python : Interpreter}.

(** [interpret] and [exec_func] return [None] whenever they return. *)
Lemma interpret_returns_none (code : string) (in_vars : env) (v : value) :
  (interpret code in_vars).1.1 = Ok v -> v = VNone.
Proof.
  unfold interpret, exec_func.
  destruct (builtin_eval code in_vars) as [[[result|e tb] g] out].
  - destruct result; simpl; congruence.
  - destruct e; simpl; try discriminate.
    destruct (builtin_exec code g) as [[[[]|e' tb'] g'] out']; simpl; congruence.
Qed.

Lemma exec_func_returns_none (code : string) (glob_vars : env) (v : value) :
  (exec_func code glob_vars).1.1 = Ok v -> v = VNone.
Proof.
  unfold exec_func.
  destruct (builtin_exec code glob_vars) as [[[[]|e tb] g] out]; simpl; congruence.
Qed.

(** The block of [run] never replaces the termination handler. *)
Lemma run_body_exit (code : string) (use_eval : option bool) (path : option string)
    (store_ : bool) (self : Runner) (con : console) :
  exit (run_body code use_eval path store_ self con).1.2 = exit self.
Proof.
  unfold run_body.
  destruct path as [p|];
    match goal with |- context [run_func ?u ?c ?g] =>
      destruct (run_func u c g) as [[[v|e tb] g'] out] end; simpl;
    try reflexivity; unfold store; destruct store_; simpl; try reflexivity;
    by destruct (stored self).
Qed.

(** What the block of [run] returns or raises is what the selected
    function does with the fragment. *)
Lemma run_body_result (code : string) (use_eval : option bool) (path : option string)
    (store_ : bool) (self : Runner) (con : console) :
  (run_body code use_eval path store_ self con).1.1 =
    (run_func use_eval code (run_namespace path self)).1.1.
Proof.
  unfold run_body, run_namespace.
  destruct path as [p|];
    match goal with |- context [run_func ?u ?c ?g] =>
      destruct (run_func u c g) as [[[v|e tb] g'] out] end; reflexivity.
Qed.

(** A runner that does not record stays that way. *)
Lemma perform_stored_none (c : call) (self : Runner) (con : console) :
  stored self = None -> stored (perform c self con).1 = None.
Proof.
  intros Hstored. destruct c as [code use_eval path all_errors_exit store_ | path all_errors_exit].
  - unfold perform, run, handling_errors, run_body.
    destruct path as [p|];
      match goal with |- context [run_func ?u ?c ?g] =>
        destruct (run_func u c g) as [[[v|e tb] g'] out] end; simpl;
      unfold store, call_exit; simpl; rewrite ?Hstored;
      try (destruct store_; simpl; exact Hstored);
      destruct e; simpl; handler_cases; simpl; exact Hstored.
  - unfold perform, Runner_run_file, handling_errors.
    destruct (run_file (fixpath path)) as [[module_vars|e tb] out].
    + destruct (splitname (fixpath path)) as [[[dirpath name] exts]|e tb]; simpl.
      * unfold store. simpl. by rewrite Hstored.
      * destruct e; simpl; unfold call_exit; simpl; handler_cases; simpl; exact Hstored.
    + destruct e; simpl; unfold call_exit; simpl; handler_cases; simpl; exact Hstored.
Qed.

(** X7: on a runner built without recording, no sequence of [run] and
    [run_file] calls records anything: the transcript stays absent and
    [was_run_code] returns the empty string, whatever [get_all] is. *)
Theorem recording_disabled (cs : list call) (self : Runner) (con : console) (get_all : bool) :
  stored self = None ->
  stored (perform_all cs self con).1 = None /\
  was_run_code get_all (perform_all cs self con).1 = (Ok "", (perform_all cs self con).1).
Proof.
  intros Hstored.
  assert (Hnone : stored (perform_all cs self con).1 = None).
  { revert self con Hstored. induction cs as [|c cs IH]; intros self con Hstored; simpl.
    - exact Hstored.
    - pose proof (perform_stored_none c self con Hstored) as Hstep.
      destruct (perform c self con) as [self' con']. by apply IH. }
  split; [exact Hnone|]. unfold was_run_code. by rewrite Hnone.
Qed.

(** A runner is determined by its attributes. *)
Lemma runner_eta (self : Runner) (lines : option (list string)) :
  stored self = lines -> mkRunner (exit self) (vars self) lines = self.
Proof. intros <-. by destruct self. Qed.

(** X8: [was_run_code(get_all=False)] returns the last recorded entry and
    leaves the transcript as it is; on a recording runner that has recorded
    nothing it raises [IndexError]. *)
Theorem was_run_code_last (self : Runner) (lines : list string) :
  stored self = Some lines ->
  (forall earlier line, lines = earlier ++ [line] ->
     was_run_code false self = (Ok line, self)) /\
  (lines = [] ->
     exists msg, was_run_code false self = (Raise (OtherException "IndexError" msg) [], self)).
Proof.
  intros Hstored. unfold was_run_code. rewrite Hstored.
  rewrite (runner_eta self (Some lines) Hstored). split.
  - intros earlier line ->. by rewrite last_snoc.
  - intros ->. by eexists.
Qed.

(** X9: right after a [run] that asked for recording and whose fragment
    ran without raising, [was_run_code(get_all=False)] returns that
    fragment. *)
Theorem was_run_code_after_run (code : string) (use_eval : option bool)
    (path : option string) (all_errors_exit : bool) (self : Runner) (con : console)
    (lines : list string) :
  stored self = Some lines ->
  runs_cleanly code use_eval path self = true ->
  (was_run_code false (run code use_eval path all_errors_exit true self con).1.2).1 = Ok code.
Proof.
  intros Hstored Hclean.
  pose proof (perform_stored (call_run code use_eval path all_errors_exit true) self con
                lines Hstored) as Hstep.
  unfold perform in Hstep.
  destruct (run code use_eval path all_errors_exit true self con) as [[res self'] con'].
  simpl in Hstep |- *. unfold run_fragment in Hstep. rewrite Hclean in Hstep.
  simpl in Hstep. unfold was_run_code. rewrite Hstep. by rewrite last_snoc.
Qed.

(** X10: unless [use_eval] is [True], [run] returns [None] whenever it
    returns: the value of an expression is printed, never handed back. *)
Theorem run_returns_none (code : string) (use_eval : option bool) (path : option string)
    (all_errors_exit store_ : bool) (self : Runner) (con : console) :
  use_eval <> Some true ->
  (run code use_eval path all_errors_exit store_ self con).1.1 = Ok VNone \/
  exists e tb, (run code use_eval path all_errors_exit store_ self con).1.1 = Raise e tb.
Proof.
  intros Hmode.
  destruct (run code use_eval path all_errors_exit store_ self con).1.1 as [v|e tb] eqn:Hrun;
    [left | right; by eexists _, _].
  f_equal. revert Hrun. unfold run, handling_errors.
  pose proof (run_body_result code use_eval path store_ self con) as Hres.
  destruct (run_body code use_eval path store_ self con) as [[[v'|e tb] self1] con1];
    simpl in Hres.
  - simpl. intros [= <-].
    destruct use_eval as [[|]|]; [done | |].
    + by apply (exec_func_returns_none code (run_namespace path self)).
    + by apply (interpret_returns_none code (run_namespace path self)).
  - destruct e; simpl; unfold call_exit; handler_cases; simpl; congruence.
Qed.

(** X11: with [use_eval=True], when the evaluation succeeds [run] returns
    the value and prints nothing beyond what the fragment itself printed. *)
Theorem run_eval_returns_value (code : string) (path : option string)
    (all_errors_exit store_ : bool) (self : Runner) (con : console)
    (v : value) (g : env) (out : list string) :
  builtin_eval code (run_namespace path self) = (Ok v, g, out) ->
  (run code (Some true) path all_errors_exit store_ self con).1.1 = Ok v /\
  stdout (run code (Some true) path all_errors_exit store_ self con).2 = stdout con ++ out /\
  stderr (run code (Some true) path all_errors_exit store_ self con).2 = stderr con.
Proof.
  intros Heval. unfold run, handling_errors, run_body, run_func.
  destruct path as [p|]; simpl in Heval; rewrite Heval; simpl; done.
Qed.

(** The traceback loop drops the first frames. *)
Lemma strip_layers_drop (n : nat) (tb : traceback) : strip_layers n tb = drop n tb.
Proof.
  revert tb. induction n as [|n IH]; intros tb; [by rewrite drop_0|].
  destruct tb as [|frame tb]; simpl; [reflexivity | apply IH].
Qed.

(** X12: for a failure other than [SystemExit], [handling_errors] prints
    exactly one exception, the one raised, with its traceback minus the
    first [num_added_tb_layers] frames (all of them when there are fewer),
    and writes nothing to standard output; this does not depend on
    [all_errors_exit]. *)
Theorem handling_errors_diagnostic {A : Type} (all_errors_exit : bool) (body : M A)
    (self self1 : Runner) (con con1 : console) (e : exn) (tb : traceback) :
  body self con = (Raise e tb, self1, con1) ->
  is_SystemExit e = false ->
  stderr (handling_errors all_errors_exit body self con).2 =
    stderr con1 ++ [(e, drop num_added_tb_layers tb)] /\
  stdout (handling_errors all_errors_exit body self con).2 = stdout con1.
Proof.
  intros Hbody He. rewrite (handling_errors_failure _ _ _ _ _ _ _ _ Hbody He); cbv zeta.
  rewrite strip_layers_drop.
  destruct all_errors_exit; [|done].
  by destruct (call_exit_calls (A:=A) (VInt 1) self1
                 (print_exception e (drop num_added_tb_layers tb) con1))
    as (_ & -> & -> & _).
Qed.

(** X13: with a termination handler that returns (an embedding that
    overrides shutdown), neither [run] nor [run_file] ever raises, whatever
    the fragment or the module does and whatever the flags are. *)
Theorem runner_never_raises_when_handler_returns (self : Runner) (con : console) :
  (forall status, exit self status = None) ->
  (forall code use_eval path all_errors_exit store_,
     exists v, (run code use_eval path all_errors_exit store_ self con).1.1 = Ok v) /\
  (forall path all_errors_exit,
     (Runner_run_file path all_errors_exit self con).1.1 = Ok tt).
Proof.
  intros Hreturns. split.
  - intros code use_eval path all_errors_exit store_. unfold run, handling_errors.
    pose proof (run_body_exit code use_eval path store_ self con) as Hexit.
    destruct (run_body code use_eval path store_ self con) as [[[v|e tb] self1] con1];
      simpl in Hexit; [by eexists|].
    destruct e; simpl; unfold call_exit; rewrite ?Hexit, ?Hreturns;
      destruct all_errors_exit; rewrite ?Hexit, ?Hreturns; by eexists.
  - intros path all_errors_exit. unfold Runner_run_file, handling_errors.
    destruct (run_file (fixpath path)) as [[module_vars|e tb] out].
    + destruct (splitname (fixpath path)) as [[[dirpath name] exts]|e tb]; simpl;
        [reflexivity|].
      destruct e; simpl; unfold call_exit; simpl; rewrite ?Hreturns;
        destruct all_errors_exit; simpl; rewrite ?Hreturns; reflexivity.
    + destruct e; simpl; unfold call_exit; simpl; rewrite ?Hreturns;
        destruct all_errors_exit; simpl; rewrite ?Hreturns; reflexivity.
Qed.

(** X14: with the default handler [sys.exit], [run] lets a fragment's
    [SystemExit] leave with the same code, and with [all_errors_exit=True]
    it turns any other failure into [SystemExit(1)]; in both cases the
    handler was called once. *)
Theorem run_with_sys_exit (code : string) (use_eval : option bool) (path : option string)
    (all_errors_exit store_ : bool) (self : Runner) (con : console) (e : exn)
    (tb : traceback) :
  exit self = sys_exit ->
  (run_func use_eval code (run_namespace path self)).1.1 = Raise e tb ->
  (forall status, e = SystemExit status ->
     (run code use_eval path all_errors_exit store_ self con).1.1
       = Raise (SystemExit status) []) /\
  (is_SystemExit e = false -> all_errors_exit = true ->
     (run code use_eval path all_errors_exit store_ self con).1.1
       = Raise (SystemExit (VInt 1)) []).
Proof.
  intros Hdefault Hfails.
  pose proof (run_body_exit code use_eval path store_ self con) as Hexit.
  pose proof (run_body_result code use_eval path store_ self con) as Hres.
  rewrite Hfails in Hres. unfold run, handling_errors.
  destruct (run_body code use_eval path store_ self con) as [[res self1] con1].
  simpl in Hexit, Hres. subst res. rewrite Hdefault in Hexit. split.
  - intros status ->. unfold call_exit. by rewrite Hexit.
  - intros He ->. destruct e; try discriminate He; unfold call_exit; by rewrite Hexit.
Qed.

(** X15: without a path, the namespace of the runner after [run] is the
    one the selected function left, on every path: a fragment that fails
    half-way keeps the bindings it made, and no handler or flag rolls them
    back. *)
Theorem run_keeps_bindings (code : string) (use_eval : option bool)
    (all_errors_exit store_ : bool) (self : Runner) (con : console) :
  vars (run code use_eval None all_errors_exit store_ self con).1.2 =
    (run_func use_eval code (vars self)).1.2.
Proof.
  unfold run, handling_errors, run_body.
  destruct (run_func use_eval code (vars self)) as [[[v|e tb] g] out]; simpl.
  - destruct store_; [by rewrite store_vars | reflexivity].
  - destruct e; simpl; unfold call_exit; simpl; handler_cases; reflexivity.
Qed.

(** X16: the namespace [build_vars] builds, name by name: every reserved
    name is bound to [None], also when it is one of the four names below;
    otherwise [__name__] is ["__main__"], [__package__] is [None], [reload]
    is the reload function, [__file__] is the fixed path when a path is
    given, and nothing else is bound. *)
Theorem build_vars_lookup (path : option string) (x : string) :
  build_vars path !! x =
    if decide (x ∈ reserved_vars) then Some VNone
    else if decide (x = "__file__") then (fun p => VStr (fixpath p)) <$> path
    else if decide (x = "reload") then Some reload
    else if decide (x = "__package__") then Some VNone
    else if decide (x = "__name__") then Some (VStr "__main__")
    else None.
Proof.
  unfold build_vars. rewrite reserve_lookup.
  destruct (decide (x ∈ reserved_vars)); [reflexivity|].
  repeat case_decide; subst; destruct path; by simplify_map_eq.
Qed.

(** X17: [fix_pickle] binds and unbinds no name; it leaves every name that
    starts with two underscores and every name the module [__coconut__]
    lacks, and rebinds each other name to the module's object; neither the
    transcript nor the handler changes. *)
Theorem fix_pickle_lookup (self : Runner) (x : string) :
  vars (fix_pickle self) !! x =
    (fun old => if String.prefix "__" x then old
                else default old (coconut_module !! x)) <$> vars self !! x /\
  stored (fix_pickle self) = stored self /\
  exit (fix_pickle self) = exit self.
Proof.
  split; [|done]. unfold fix_pickle. simpl. rewrite map_lookup_imap.
  destruct (vars self !! x) as [old|]; simpl; [|reflexivity].
  destruct (String.prefix "__" x); [reflexivity|].
  by destruct (coconut_module !! x).
Qed.

(** [run] without recording leaves the transcript alone. *)
Lemma run_unrecorded_stored (code : string) (use_eval : option bool) (path : option string)
    (all_errors_exit : bool) (self : Runner) (con : console) :
  stored (run code use_eval path all_errors_exit false self con).1.2 = stored self /\
  exit (run code use_eval path all_errors_exit false self con).1.2 = exit self.
Proof.
  unfold run, handling_errors, run_body.
  destruct path as [p|];
    match goal with |- context [run_func ?u ?c ?g] =>
      destruct (run_func u c g) as [[[v|e tb] g'] out] end; simpl; try done;
    destruct e; simpl; unfold call_exit; simpl; handler_cases; done.
Qed.

(** X18: a runner built with a compiler starts with the package header as
    its only transcript entry when it records (and with none when it does
    not): the header code it runs is not recorded, whether it succeeds or
    fails, and the handler is the one injected. *)
Theorem Runner_init_with_compiler (getheader : string -> string)
    (exit_ : value -> option (exn * traceback)) (store_ : bool) (path : option string)
    (con con' : console) (self : Runner) :
  Runner_init (Some getheader) exit_ store_ path con = (Ok self, con') ->
  stored self = (if store_ then Some [getheader "package:0"] else None) /\
  exit self = exit_.
Proof.
  unfold Runner_init. intros Hinit.
  match type of Hinit with context [run ?c ?u ?p ?a ?s ?r ?k] =>
    pose proof (run_unrecorded_stored c u p a r k) as [Hstored Hexit];
    destruct (run c u p a s r k) as [[[v|e tb] self2] con2] end;
    [|discriminate Hinit].
  injection Hinit as <- <-. simpl in Hstored, Hexit.
  change (stored (fix_pickle self2)) with (stored self2).
  change (exit (fix_pickle self2)) with (exit self2).
  rewrite Hstored, Hexit. unfold store. by destruct store_.
Qed.

(** X19: when the module loads, [Runner.run_file] merges its namespace
    into the namespace of the runner even if the path then turns out to have
    no extension and nothing can be recorded; when the module does not load,
    the namespace of the runner is untouched. *)
Theorem Runner_run_file_merges (path : string) (all_errors_exit : bool) (self : Runner)
    (con : console) :
  vars (Runner_run_file path all_errors_exit self con).1.2 =
    match run_file (fixpath path) with
    | (Ok module_vars, _) => update (vars self) module_vars
    | (Raise _ _, _) => vars self
    end.
Proof.
  unfold Runner_run_file, handling_errors.
  destruct (run_file (fixpath path)) as [[module_vars|e tb] out].
  - destruct (splitname (fixpath path)) as [[[dirpath name] exts]|e tb]; simpl.
    + by rewrite store_vars.
    + destruct e; simpl; unfold call_exit; simpl; handler_cases; reflexivity.
  - destruct e; simpl; unfold call_exit; simpl; handler_cases; reflexivity.
Qed.

(** X20: for a path whose file name has no extension, [Runner.run_file]
    records nothing although the module was loaded: [splitname] raises
    [ValueError], which is printed, and with [all_errors_exit=True] (the
    default) the handler is called with status 1. *)
Theorem Runner_run_file_without_extension (path : string) (all_errors_exit : bool)
    (self : Runner) (con : console) (module_vars : env) (out : list string) :
  run_file (fixpath path) = (Ok module_vars, out) ->
  split_once "."%char (os_path_split (fixpath path)).2 = None ->
  stored (Runner_run_file path all_errors_exit self con).1.2 = stored self /\
  (exists msg tb, stderr (Runner_run_file path all_errors_exit self con).2 =
                    stderr con ++ [(ValueError msg, tb)]) /\
  exit_calls (Runner_run_file path all_errors_exit self con).2 =
    exit_calls con ++ (if all_errors_exit then [VInt 1] else []).
Proof.
  intros Hload Hname. unfold Runner_run_file, handling_errors. rewrite Hload.
  unfold splitname. destruct (os_path_split (fixpath path)) as [dirpath filename].
  simpl in Hname. rewrite Hname. simpl.
  destruct all_errors_exit; unfold call_exit; simpl.
  - destruct (exit self (VInt 1)) as [[e tb]|]; simpl; repeat split; by eexists _, _.
  - rewrite app_nil_r. repeat split; by eexists _, _.
Qed.


End ExecutionBehaviour.

(** ** Exporting the namespace *)

(** What deleting a list of names does: it succeeds exactly when the names
    are pairwise distinct and all bound, and then unbinds them and nothing
    else; otherwise it raises [KeyError] for one of the names. *)
Lemma del_vars_spec (names : list string) (d : env) :
  match del_vars d names with
  | Ok d' =>
      NoDup names /\ (forall x, x ∈ names -> is_Some (d !! x)) /\
      forall x, d' !! x = if decide (x ∈ names) then None else d !! x
  | Raise e tb =>
      ~ (NoDup names /\ forall x, x ∈ names -> is_Some (d !! x)) /\
      exists name, name ∈ names /\ e = OtherException "KeyError" name /\ tb = []
  end.
Proof.
  revert d. induction names as [|name rest IH]; intros d; simpl.
  - split; [constructor|]. split; [by intros x Hx%elem_of_nil | done].
  - destruct (d !! name) as [v|] eqn:Hname.
    + specialize (IH (delete name d)).
      destruct (del_vars (delete name d) rest) as [d'|e tb].
      * destruct IH as (Hnodup & Hbound & Hlookup).
        assert (Hfresh : name ∉ rest).
        { intros Hin. destruct (Hbound name Hin) as [w Hw].
          by rewrite lookup_delete_eq in Hw. }
        split; [by constructor|]. split.
        -- intros x [->|Hx]%elem_of_cons; [by eexists|].
           destruct (Hbound x Hx) as [w Hw].
           destruct (decide (name = x)) as [->|Hne]; [done|].
           rewrite lookup_delete_ne in Hw by done. by eexists.
        -- intros x. rewrite Hlookup.
           destruct (decide (x ∈ rest)) as [Hx|Hx].
           ++ rewrite decide_True; [done | by apply elem_of_cons; right].
           ++ destruct (decide (name = x)) as [->|Hne].
              ** rewrite lookup_delete_eq.
                 rewrite decide_True; [done | by apply elem_of_cons; left].
              ** rewrite lookup_delete_ne by done.
                 rewrite decide_False; [done|].
                 intros [->|Hin]%elem_of_cons; done.
      * destruct IH as (Hbad & name' & Hin & -> & ->). split.
        -- intros [Hnodup Hbound]. apply Hbad.
           apply NoDup_cons in Hnodup as [Hfresh Hnodup]. split; [done|].
           intros x Hx. destruct (Hbound x) as [w Hw]; [by apply elem_of_cons; right|].
           exists w. rewrite lookup_delete_ne; [done|]. by intros ->.
        -- exists name'. split; [by apply elem_of_cons; right | done].
    + split.
      * intros [_ Hbound]. destruct (Hbound name) as [w Hw]; [by apply elem_of_cons; left|].
        congruence.
      * exists name. split; [by apply elem_of_cons; left | done].
Qed.

(** X21: when the names to ignore are pairwise distinct and all bound in
    the runner, [update_vars] copies every other binding of the runner into
    [global_vars], overriding what was there, and leaves the ignored names
    and the names the runner does not bind as [global_vars] had them. *)
Theorem update_vars_exports (global_vars : env) (ignore_vars : list string) (self : Runner) :
  NoDup ignore_vars ->
  (forall x, x ∈ ignore_vars -> is_Some (vars self !! x)) ->
  exists exported,
    update_vars global_vars ignore_vars self = (Ok tt, exported) /\
    forall x,
      exported !! x =
        if decide (x ∈ ignore_vars) then global_vars !! x
        else match vars self !! x with
             | Some v => Some v
             | None => global_vars !! x
             end.
Proof.
  intros Hnodup Hbound. unfold update_vars, update.
  pose proof (del_vars_spec ignore_vars (vars self)) as Hdel.
  destruct (del_vars (vars self) ignore_vars) as [kept|e tb].
  - destruct Hdel as (_ & _ & Hkept).
    assert (Hgoal : forall x,
              (kept ∪ global_vars) !! x =
                if decide (x ∈ ignore_vars) then global_vars !! x
                else match vars self !! x with
                     | Some v => Some v
                     | None => global_vars !! x
                     end).
    { intros x. specialize (Hkept x). destruct (decide (x ∈ ignore_vars)).
      - by rewrite lookup_union_r.
      - destruct (vars self !! x) as [v|].
        + by apply lookup_union_Some_l.
        + by rewrite lookup_union_r. }
    destruct ignore_vars as [|name rest]; [|by eexists].
    eexists. split; [reflexivity|]. intros x. rewrite <- Hgoal.
    assert (kept = vars self) as ->; [|done].
    apply map_eq. intros y. rewrite Hkept.
    rewrite decide_False; [done | by intros Hy%elem_of_nil].
  - destruct Hdel as [Hbad _]. by destruct Hbad.
Qed.

(** X22: when a name to ignore is not bound in the runner, or is listed
    twice, [update_vars] raises [KeyError] for one of the listed names and
    leaves [global_vars] untouched. *)
Theorem update_vars_key_error (global_vars : env) (ignore_vars : list string)
    (self : Runner) :
  ~ NoDup ignore_vars \/ (exists x, x ∈ ignore_vars /\ vars self !! x = None) ->
  exists name,
    name ∈ ignore_vars /\
    update_vars global_vars ignore_vars self =
      (Raise (OtherException "KeyError" name) [], global_vars).
Proof.
  intros Hbad. unfold update_vars.
  pose proof (del_vars_spec ignore_vars (vars self)) as Hdel.
  destruct (del_vars (vars self) ignore_vars) as [kept|e tb].
  - destruct Hdel as (Hnodup & Hbound & _).
    destruct Hbad as [Hdup|(x & Hx & Hnone)]; [done|].
    destruct (Hbound x Hx) as [v Hv]. congruence.
  - destruct Hdel as (_ & name & Hin & -> & ->).
    exists name. split; [done|]. destruct ignore_vars; [by apply elem_of_nil in Hin | done].
Qed.

(** ** Paths, source text and settings *)

Section PathNames.

Context {python : Interpreter}.

(** Splitting at the first separator: the parts give back the string, and
    the first part is free of the separator. *)
Lemma split_once_parts (sep : ascii) (s name exts : string) :
  split_once sep s = Some (name, exts) ->
  s = name +:+ String sep exts /\
  forall a b, name <> a +:+ String sep b.
Proof.
  revert name exts. induction s as [|c s IH]; intros name exts; simpl; [discriminate|].
  destruct (Ascii.eqb_spec c sep) as [->|Hne].
  - intros [= <- <-]. split; [reflexivity|]. intros [|a0 a] b; discriminate.
  - destruct (split_once sep s) as [[name' exts']|]; [|discriminate].
    intros [= <- <-]. destruct (IH name' exts' eq_refl) as [-> Hfree].
    split; [reflexivity|].
    intros [|a0 a] b.
    + intros [= -> _]. done.
    + intros [= _ Hrest]. by apply (Hfree a b).
Qed.

(** No split means no separator. *)
Lemma split_once_none (sep : ascii) (s : string) :
  split_once sep s = None <-> forall a b, s <> a +:+ String sep b.
Proof.
  split.
  - induction s as [|c s IH]; simpl; intros Hnone a b.
    + destruct a; discriminate.
    + destruct (Ascii.eqb_spec c sep) as [->|Hne]; [discriminate|].
      destruct (split_once sep s) as [[name exts]|]; [discriminate|].
      destruct a as [|a0 a].
      * intros [= -> _]. done.
      * intros [= _ Hrest]. by apply (IH eq_refl a b).
  - intros Hfree. destruct (split_once sep s) as [[name exts]|] eqn:Hsplit; [|done].
    apply split_once_parts in Hsplit as [-> _]. by destruct (Hfree name exts).
Qed.

(** X23: when [splitname] returns, the directory is the one
    [os.path.split] gives, the name and the extensions joined by a dot give
    back the file name, and the name has no dot: all extensions, not just the
    last, are in the third component. *)
Theorem splitname_parts (path dirpath name exts : string) :
  splitname path = Ok (dirpath, name, exts) ->
  os_path_split path = (dirpath, name +:+ "." +:+ exts) /\
  forall a b, name <> a +:+ "." +:+ b.
Proof.
  unfold splitname. destruct (os_path_split path) as [d filename].
  destruct (split_once "." filename) as [[n e]|] eqn:Hsplit; [|discriminate].
  intros [= <- <- <-]. apply split_once_parts in Hsplit as [-> Hfree].
  split; [reflexivity | exact Hfree].
Qed.

(** X24: [splitname] raises [ValueError] exactly when the file name has
    no dot (a file without extension, or a path that ends with the
    separator). *)
Theorem splitname_value_error (path : string) :
  (exists msg, splitname path = Raise (ValueError msg) []) <->
  forall a b, (os_path_split path).2 <> a +:+ "." +:+ b.
Proof.
  unfold splitname. destruct (os_path_split path) as [d filename]. simpl.
  rewrite <- (split_once_none "." filename).
  destruct (split_once "." filename) as [[n e]|]; split; try done.
  - by intros [msg [=]].
  - by eexists.
Qed.

End PathNames.

(** The loop over the first lines keeps the lines that are no encoding
    declarations, in order. *)
Lemma scan_first_lines_filter (n : nat) (old_lines new_lines : list string) :
  scan_first_lines n old_lines new_lines =
    new_lines ++ filter (fun line => is_encoding_line line = false) (take n old_lines).
Proof.
  revert old_lines new_lines.
  induction n as [|n IH]; intros [|line rest] new_lines; simpl;
    rewrite ?app_nil_r; try reflexivity.
  rewrite IH, filter_cons.
  destruct (is_encoding_line line); simpl; [reflexivity | by rewrite <- app_assoc].
Qed.

(** X25: [rem_encoding] gives back exactly the lines of the code joined
    by line feeds, without those of the first two lines that are comments
    mentioning [coding]: the other lines of the first two and every line
    from the third on, an encoding declaration included, are kept as often
    as they occur and in their order. *)
Theorem rem_encoding_lines (splitlines : string -> list string) (code : string) :
  rem_encoding splitlines code =
    join nl (filter (fun line => is_encoding_line line = false) (take 2 (splitlines code))
             ++ drop 2 (splitlines code)).
Proof. unfold rem_encoding. by rewrite scan_first_lines_filter. Qed.

(** X26: code whose first two lines hold no encoding declaration comes
    back as its lines joined by line feeds, nothing removed. *)
Theorem rem_encoding_without_declaration (splitlines : string -> list string)
    (code : string) :
  (forall line, line ∈ take 2 (splitlines code) -> is_encoding_line line = false) ->
  rem_encoding splitlines code = join nl (splitlines code).
Proof.
  intros Hplain. unfold rem_encoding. rewrite scan_first_lines_filter. simpl.
  assert (Hkeep : filter (fun line => is_encoding_line line = false)
                    (take 2 (splitlines code)) = take 2 (splitlines code)).
  { induction (take 2 (splitlines code)) as [|line lines IH]; [reflexivity|].
    rewrite filter_cons, decide_True by (apply Hplain; by left).
    rewrite IH; [reflexivity|]. intros l Hl. apply Hplain. by right. }
  by rewrite Hkeep, take_drop.
Qed.

(** A string starts with each of its prefixes. *)
Lemma prefix_append (s t : string) : String.prefix s (s +:+ t) = true.
Proof.
  induction s as [|a s IH]; [by destruct t|].
  change (String.prefix (String a s) (String a (s +:+ t)) = true).
  simpl. destruct (ascii_dec a a); [exact IH | done].
Qed.

Lemma prefix_self (s : string) : String.prefix s s = true.
Proof. pose proof (prefix_append s "") as Hs. by rewrite append_empty_r in Hs. Qed.

Section MypyPath.

Context {installation : Installation}.

(** X28: when [symlink] returns, [set_mypy_path] leaves the variable set
    to a value that starts with the installed stub directory, and changes no
    other variable; when [symlink] raises, the environment is untouched. *)
Theorem set_mypy_path_starts_with_stubs (environ : gmap string string) :
  match symlink base_stub_dir installed_stub_dir with
  | None =>
      (exists value,
         (set_mypy_path environ).2 !! mypy_path_env_var = Some value /\
         String.prefix installed_stub_dir value = true) /\
      forall other, other <> mypy_path_env_var ->
                    (set_mypy_path environ).2 !! other = environ !! other
  | Some (e, tb) => set_mypy_path environ = (Raise e tb, environ)
  end.
Proof.
  unfold set_mypy_path.
  destruct (symlink base_stub_dir installed_stub_dir) as [[e tb]|]; [reflexivity|].
  destruct (environ !! mypy_path_env_var) as [original|] eqn:Horiginal.
  - destruct (String.prefix installed_stub_dir original) eqn:Hprefix; simpl.
    + split; [by eexists | done].
    + split.
      * eexists. rewrite lookup_insert_eq. split; [reflexivity | apply prefix_append].
      * intros other Hother. by rewrite lookup_insert_ne.
  - simpl. split.
    + eexists. rewrite lookup_insert_eq. split; [reflexivity | apply prefix_self].
    + intros other Hother. by rewrite lookup_insert_ne.
Qed.

(** X29: [set_mypy_path] is idempotent on the environment: a second call
    finds the stub directory in front and changes nothing, so the directory
    is never added twice. *)
Theorem set_mypy_path_idempotent (environ : gmap string string) :
  set_mypy_path (set_mypy_path environ).2 = set_mypy_path environ.
Proof.
  unfold set_mypy_path.
  destruct (symlink base_stub_dir installed_stub_dir) as [[e tb]|]; simpl.
  - reflexivity.
  - destruct (environ !! mypy_path_env_var) as [original|] eqn:Horiginal.
    + destruct (String.prefix installed_stub_dir original) eqn:Hprefix; simpl.
      * by rewrite Horiginal, Hprefix.
      * by rewrite lookup_insert_eq, prefix_append.
    + simpl. by rewrite lookup_insert_eq, prefix_self.
Qed.

End MypyPath.

Section PromptStyle.

Context {highlighting : Highlighting}.

(** X30: [Prompt.set_style] keeps the style either unset or one of the
    known pygments styles: when it returns, the style is unset exactly for
    ["none"] and otherwise the requested known style; when it raises, the
    style is as before.  ["none"] is accepted even without
    [prompt_toolkit]; ["list"] prints the styles and raises
    [SystemExit(0)]. *)
Theorem set_style_keeps_known_style (new_style : string) (self : Prompt) :
  (style self = None \/ exists known, style self = Some known /\ known ∈ get_all_styles) ->
  let '(result, self', printed) := set_style new_style self in
  (style self' = None \/ exists known, style self' = Some known /\ known ∈ get_all_styles) /\
  match result with
  | Ok _ =>
      printed = [] /\
      if decide (new_style = "none") then style self' = None
      else style self' = Some new_style /\ prompt_toolkit = true
  | Raise e _ =>
      self' = self /\
      (e = SystemExit (VInt 0) <-> prompt_toolkit = true /\ new_style = "list")
  end.
Proof.
  intros Hknown. unfold set_style.
  destruct (decide (new_style = "none")) as [->|Hnone]; [by split; [left|]|].
  destruct prompt_toolkit; simpl.
  - destruct (decide (new_style = "list")) as [->|Hlist]; [by repeat split|].
    destruct (decide (new_style ∈ get_all_styles)) as [Hin|Hout].
    + split; [right; by eexists | done].
    + repeat split; try done. by intros [_ ->].
  - repeat split; try done. by intros [? _].
Qed.

End PromptStyle.

(** ** Concrete runs *)

#[local] Existing Instances MiniPython.python MiniPython.platform.


(** [run_cmd_captured_output] on [echo hi there] with the text [in] on
    standard input: two rounds of output, nothing on standard error. *)
Lemma run_cmd_captured_output_witness :
  (run_cmd 0%nat false false (Some "in") (MiniPython.caller ["echo"; "hi"; "there"])).1 =
    Ok (VStr "hi therein").
Proof.
  exact (run_cmd_captured_output (platform := MiniPython.platform) 0%nat (MiniPython.caller ["echo"; "hi"; "there"])
           "echo" ["hi"; "there"] (Some "in") _ eq_refl eq_refl).
Defined.

(** [run_cmd_mutates_caller_list] on [echo hi]: the caller's list becomes
    [/bin/echo hi]. *)
Lemma run_cmd_mutates_caller_list_witness :
  lists (run_cmd 0%nat false false None (MiniPython.caller ["echo"; "hi"])).2 !! 0%nat =
    Some ["/bin/echo"; "hi"] /\
  lists (run_cmd 0%nat false false None (MiniPython.caller ["echo"; "hi"])).2 !! 0%nat <>
    lists (MiniPython.caller ["echo"; "hi"]) !! 0%nat.
Proof.
  destruct (run_cmd_mutates_caller_list (platform := MiniPython.platform) 0%nat (MiniPython.caller ["echo"; "hi"])
              "echo" ["hi"] false false None eq_refl eq_refl) as (_ & Hfound & _ & Hdiffers).
  split.
  - apply (Hfound "/bin/echo"); [reflexivity | discriminate].
  - apply (Hdiffers "/bin/echo"); [reflexivity | discriminate | discriminate].
Defined.

(** [handling_errors_isolates] on the fragment [y + 1], which raises
    [NameError]; afterwards [2 + 2] runs. *)
Lemma handling_errors_isolates_witness :
  exists con2,
    handling_errors false MiniPython.failing MiniPython.fresh MiniPython.quiet =
      (Ok None, (MiniPython.failing MiniPython.fresh MiniPython.quiet).1.2, con2) /\
    exit_calls con2 = [] /\
    exists v,
      (run "2 + 2" None None false true
         (MiniPython.failing MiniPython.fresh MiniPython.quiet).1.2 con2).1.1 = Ok v.
Proof.
  destruct (handling_errors_isolates (python := MiniPython.python) MiniPython.failing MiniPython.fresh
              (MiniPython.failing MiniPython.fresh MiniPython.quiet).1.2
              MiniPython.quiet MiniPython.quiet
              (OtherException "NameError" "y") MiniPython.module_frame eq_refl eq_refl)
    as (con2 & Hreturns & Hcalls & Hnext).
  exists con2. split; [exact Hreturns|]. split; [exact Hcalls|].
  apply Hnext. intros c tb. discriminate.
Defined.

(** [handling_errors_escalates] on the same failing fragment: one call of
    the handler. *)
Lemma handling_errors_escalates_witness :
  exists status,
    status <> 0%Z /\
    exit_calls (handling_errors true MiniPython.failing MiniPython.fresh MiniPython.quiet).2 =
      [VInt status].
Proof.
  destruct (handling_errors_escalates (python := MiniPython.python) MiniPython.failing MiniPython.fresh
              (MiniPython.failing MiniPython.fresh MiniPython.quiet).1.2
              MiniPython.quiet MiniPython.quiet
              (Raise (OtherException "NameError" "y") MiniPython.module_frame) eq_refl)
    as [Hfails _].
  exact (Hfails _ _ eq_refl eq_refl).
Defined.

(** [handling_errors_forwards_exit_code] on the fragment [exit(3)]. *)
Lemma handling_errors_forwards_exit_code_witness :
  exit_calls (handling_errors false MiniPython.leaving MiniPython.fresh MiniPython.quiet).2 =
    [VInt 3] /\
  stderr (handling_errors false MiniPython.leaving MiniPython.fresh MiniPython.quiet).2 = [] /\
  stdout (handling_errors false MiniPython.leaving MiniPython.fresh MiniPython.quiet).2 = [].
Proof.
  exact (handling_errors_forwards_exit_code (python := MiniPython.python) false MiniPython.leaving MiniPython.fresh
           (MiniPython.leaving MiniPython.fresh MiniPython.quiet).1.2
           MiniPython.quiet MiniPython.quiet (VInt 3) MiniPython.module_frame eq_refl).
Defined.

(** [interpret_none_returns] on the fragment [print(7)], whose evaluation
    prints [7] and yields [None]. *)
Lemma interpret_none_returns_witness :
  builtin_eval "print(7)" (vars MiniPython.fresh) =
    (Ok VNone, with_builtins (vars MiniPython.fresh), ["7"]) /\
  interpret "print(7)" (vars MiniPython.fresh) =
    (Ok VNone, with_builtins (vars MiniPython.fresh), ["7"]).
Proof.
  split; [reflexivity|].
  exact (interpret_none_returns (python := MiniPython.python) "print(7)"
           (vars MiniPython.fresh) _ _ eq_refl).
Defined.

(** C1, as the specification words it, fails: the evaluation of [print(7)]
    yields [None], and [interpret] prints [7] once and returns, where
    falling through to execution would print it a second time. *)
Lemma interpret_falls_through_counterexample :
  (builtin_eval "print(7)" (vars MiniPython.fresh)).1.1 = Ok VNone /\
  (interpret "print(7)" (vars MiniPython.fresh)).2 = ["7"] /\
  (spec_interpret "print(7)" (vars MiniPython.fresh)).2 = ["7"; "7"] /\
  interpret "print(7)" (vars MiniPython.fresh) <>
    spec_interpret "print(7)" (vars MiniPython.fresh).
Proof.
  repeat split; try reflexivity.
  intros Hsame. apply (f_equal snd) in Hsame. vm_compute in Hsame. discriminate Hsame.
Qed.

(** [run_expression_and_assignment] with the small Python. *)
Lemma run_expression_and_assignment_witness :
  (exists self' con',
     run "2 + 2" None None false true MiniPython.fresh MiniPython.quiet =
       (Ok VNone, self', con') /\
     stdout con' = ["4"] /\
     vars self' = with_builtins (vars MiniPython.fresh) /\
     dom (vars self') = dom (vars MiniPython.fresh) ∪ {["__builtins__"]}) /\
  (exists self' con',
     run "x = 2 + 2" None None false true MiniPython.fresh MiniPython.quiet =
       (Ok VNone, self', con') /\
     stdout con' = [] /\
     vars self' !! "x" = Some (VInt 4)).
Proof.
  apply (run_expression_and_assignment (python := MiniPython.python)
           sys_exit true None MiniPython.quiet).
  - intros g. reflexivity.
  - reflexivity.
  - intros g. eexists _, _. reflexivity.
  - intros g. reflexivity.
Defined.

(** C2, as the specification words it, fails: on a freshly built runner
    [run("2 + 2")] changes the set of bound names, because [eval] binds
    [__builtins__]. *)
Lemma run_expression_bound_names_counterexample :
  vars MiniPython.fresh !! "__builtins__" = None /\
  vars (run "2 + 2" None None false true MiniPython.fresh MiniPython.quiet).1.2
    !! "__builtins__" = Some (VObj "builtins") /\
  dom (vars (run "2 + 2" None None false true MiniPython.fresh MiniPython.quiet).1.2) <>
    dom (vars MiniPython.fresh).
Proof.
  split; [reflexivity|]. split; [reflexivity|].
  intros Hsame.
  assert (Hin : "__builtins__" ∈
            dom (vars (run "2 + 2" None None false true MiniPython.fresh MiniPython.quiet).1.2))
    by (apply elem_of_dom; eexists; reflexivity).
  rewrite Hsame in Hin. apply elem_of_dom in Hin as [v Hv]. discriminate Hv.
Qed.

(** [was_run_code_twice] after an assignment, a failing fragment and a
    loaded module. *)
Lemma was_run_code_twice_witness :
  (was_run_code true
     (perform_all [call_run "x = 2 + 2" None None false true;
                   call_run "y + 1" None None false true;
                   call_run_file "m.py" false] MiniPython.embedded MiniPython.quiet).1).1 =
    Ok ("x = 2 + 2" +:+ nl +:+ "from m import *") /\
  (was_run_code true
     (was_run_code true
        (perform_all [call_run "x = 2 + 2" None None false true;
                      call_run "y + 1" None None false true;
                      call_run_file "m.py" false] MiniPython.embedded MiniPython.quiet).1).2).1 =
    Ok ("x = 2 + 2" +:+ nl +:+ "from m import *").
Proof.
  exact (was_run_code_twice (python := MiniPython.python)
           [call_run "x = 2 + 2" None None false true;
            call_run "y + 1" None None false true;
            call_run_file "m.py" false] MiniPython.embedded MiniPython.quiet [] eq_refl).
Defined.

(** C9, as the specification words it, fails: after [run_file] has loaded
    [m.py] the transcript is the import line it recorded, although no
    fragment was recorded through [run]. *)
Lemma was_run_code_import_line_counterexample :
  stored MiniPython.embedded = Some [] /\
  run_fragments [call_run_file "m.py" false] MiniPython.embedded MiniPython.quiet = [] /\
  (was_run_code true
     (perform_all [call_run_file "m.py" false] MiniPython.embedded MiniPython.quiet).1).1 =
    Ok "from m import *" /\
  (was_run_code true
     (perform_all [call_run_file "m.py" false] MiniPython.embedded MiniPython.quiet).1).1 <>
    Ok (join nl
          (run_fragments [call_run_file "m.py" false] MiniPython.embedded MiniPython.quiet)).
Proof.
  repeat split; try reflexivity.
  intros Hsame. vm_compute in Hsame. discriminate Hsame.
Qed.

(** ** Concrete runs, continued *)

(** [run_cmd_rejects_empty_list] on an empty command. *)
Lemma run_cmd_rejects_empty_list_witness :
  exists msg,
    run_cmd 0%nat true true None (MiniPython.caller []) =
      (Raise (CoconutInternalException msg) [], MiniPython.caller []).
Proof.
  exact (run_cmd_rejects_empty_list (platform := MiniPython.platform) 0%nat true true None
           (MiniPython.caller []) (or_intror eq_refl)).
Defined.


(** [run_cmd_shown_status] on [false]. *)
Lemma run_cmd_shown_status_witness :
  (run_cmd 0%nat true false None (MiniPython.caller ["false"])).1 = Ok (VInt 1) /\
  (run_cmd 0%nat true true None (MiniPython.caller ["false"])).1 =
    Raise (CalledProcessError 1 0%nat None) [].
Proof.
  destruct (run_cmd_shown_status (platform := MiniPython.platform) 0%nat
              (MiniPython.caller ["false"]) "false" [] _ eq_refl eq_refl)
    as (Hstatus & _ & Hraises).
  split; [exact Hstatus|]. apply Hraises. discriminate.
Defined.

(** [run_cmd_captured_failure] on [false], which writes [failed] to its
    standard error. *)
Lemma run_cmd_captured_failure_witness :
  exists output,
    (run_cmd 0%nat false false None (MiniPython.caller ["false"])).1 = Ok (VStr output) /\
    (run_cmd 0%nat false true None (MiniPython.caller ["false"])).1 =
      Raise (CalledProcessError 1 0%nat (Some output)) [].
Proof.
  destruct (run_cmd_captured_failure (platform := MiniPython.platform) 0%nat
              (MiniPython.caller ["false"]) "false" [] None _ eq_refl eq_refl)
    as (output & Hreturns & _ & Hraises).
  exists output. split; [exact Hreturns|]. apply Hraises. discriminate.
Defined.

(** [run_cmd_leaves_other_lists] without [shutil.which]. *)
Lemma run_cmd_leaves_other_lists_witness :
  lists (@run_cmd Samples.legacy 0%nat false false None
           (MiniPython.caller ["/bin/echo"; "hi"])).2 =
    lists (MiniPython.caller ["/bin/echo"; "hi"]).
Proof.
  destruct (run_cmd_leaves_other_lists (platform := Samples.legacy) 0%nat 1%nat false false
              None (MiniPython.caller ["/bin/echo"; "hi"])) as [_ Hnone].
  exact (Hnone eq_refl).
Defined.

(** [recording_disabled] on a runner built without recording. *)
Lemma recording_disabled_witness :
  (was_run_code true
     (perform_all [call_run "x = 2 + 2" None None false true] Samples.silent
        MiniPython.quiet).1).1 = Ok "".
Proof.
  destruct (recording_disabled (python := MiniPython.python)
              [call_run "x = 2 + 2" None None false true] Samples.silent MiniPython.quiet
              true eq_refl) as [_ Hempty].
  by rewrite Hempty.
Defined.

(** [was_run_code_last] with two recorded lines, and with none. *)
Lemma was_run_code_last_witness :
  was_run_code false Samples.recorded = (Ok "b = 2", Samples.recorded) /\
  exists msg,
    was_run_code false MiniPython.fresh =
      (Raise (OtherException "IndexError" msg) [], MiniPython.fresh).
Proof.
  split.
  - destruct (was_run_code_last Samples.recorded ["a = 1"; "b = 2"] eq_refl) as [Hlast _].
    exact (Hlast ["a = 1"] "b = 2" eq_refl).
  - destruct (was_run_code_last MiniPython.fresh [] eq_refl) as [_ Hnone].
    exact (Hnone eq_refl).
Defined.

(** [was_run_code_after_run] after an assignment. *)
Lemma was_run_code_after_run_witness :
  (was_run_code false
     (run "x = 2 + 2" None None false true MiniPython.fresh MiniPython.quiet).1.2).1 =
    Ok "x = 2 + 2".
Proof.
  exact (was_run_code_after_run (python := MiniPython.python) "x = 2 + 2" None None false
           MiniPython.fresh MiniPython.quiet [] eq_refl eq_refl).
Defined.

(** [run_returns_none] on an expression. *)
Lemma run_returns_none_witness :
  (run "2 + 2" None None false true MiniPython.fresh MiniPython.quiet).1.1 = Ok VNone \/
  exists e tb,
    (run "2 + 2" None None false true MiniPython.fresh MiniPython.quiet).1.1 = Raise e tb.
Proof.
  apply (run_returns_none (python := MiniPython.python)). discriminate.
Defined.

(** [run_eval_returns_value] on the same expression. *)
Lemma run_eval_returns_value_witness :
  (run "2 + 2" (Some true) None false true MiniPython.fresh MiniPython.quiet).1.1 =
    Ok (VInt 4) /\
  stdout (run "2 + 2" (Some true) None false true MiniPython.fresh MiniPython.quiet).2 = [] /\
  stderr (run "2 + 2" (Some true) None false true MiniPython.fresh MiniPython.quiet).2 = [].
Proof.
  exact (run_eval_returns_value (python := MiniPython.python) "2 + 2" None false true
           MiniPython.fresh MiniPython.quiet (VInt 4) _ [] eq_refl).
Defined.

(** [handling_errors_diagnostic] on the failing fragment: of the four
    frames only the one of the fragment is printed. *)
Lemma handling_errors_diagnostic_witness :
  stderr (handling_errors false MiniPython.failing MiniPython.fresh MiniPython.quiet).2 =
    [(OtherException "NameError" "y", ["<module>"])] /\
  stdout (handling_errors false MiniPython.failing MiniPython.fresh MiniPython.quiet).2 = [].
Proof.
  exact (handling_errors_diagnostic (python := MiniPython.python) false MiniPython.failing
           MiniPython.fresh (MiniPython.failing MiniPython.fresh MiniPython.quiet).1.2
           MiniPython.quiet MiniPython.quiet
           (OtherException "NameError" "y") MiniPython.module_frame eq_refl eq_refl).
Defined.

(** [runner_never_raises_when_handler_returns] on the embedded runner. *)
Lemma runner_never_raises_when_handler_returns_witness :
  (exists v,
     (run "exit(3)" None None true true MiniPython.embedded MiniPython.quiet).1.1 = Ok v) /\
  (Runner_run_file "nowhere.py" true MiniPython.embedded MiniPython.quiet).1.1 = Ok tt.
Proof.
  destruct (runner_never_raises_when_handler_returns (python := MiniPython.python)
              MiniPython.embedded MiniPython.quiet (fun _ => eq_refl)) as [Hrun Hfile].
  split; [apply Hrun | apply Hfile].
Defined.

(** [run_with_sys_exit] on [exit(3)] and, with escalation, on the failing
    fragment. *)
Lemma run_with_sys_exit_witness :
  (run "exit(3)" None None false true MiniPython.fresh MiniPython.quiet).1.1 =
    Raise (SystemExit (VInt 3)) [] /\
  (run "y + 1" None None true true MiniPython.fresh MiniPython.quiet).1.1 =
    Raise (SystemExit (VInt 1)) [].
Proof.
  split.
  - destruct (run_with_sys_exit (python := MiniPython.python) "exit(3)" None None false true
                MiniPython.fresh MiniPython.quiet (SystemExit (VInt 3))
                MiniPython.module_frame eq_refl eq_refl) as [Hleaves _].
    exact (Hleaves (VInt 3) eq_refl).
  - destruct (run_with_sys_exit (python := MiniPython.python) "y + 1" None None true true
                MiniPython.fresh MiniPython.quiet (OtherException "NameError" "y")
                MiniPython.module_frame eq_refl eq_refl) as [_ Hescalates].
    exact (Hescalates eq_refl eq_refl).
Defined.

(** [Runner_init_with_compiler] with a compiler whose header code is
    [x = 1]. *)
Lemma Runner_init_with_compiler_witness :
  exists self con',
    Runner_init (Some Samples.getheader) sys_exit true None MiniPython.quiet =
      (Ok self, con') /\
    stored self = Some ["# header"] /\
    exit self = sys_exit.
Proof.
  eexists _, _. split; [reflexivity|].
  exact (Runner_init_with_compiler (python := MiniPython.python) Samples.getheader sys_exit
           true None MiniPython.quiet _ _ eq_refl).
Defined.

(** [Runner_run_file_without_extension] on the module [script]. *)
Lemma Runner_run_file_without_extension_witness :
  stored (@Runner_run_file Samples.scripts "script" true MiniPython.fresh
            MiniPython.quiet).1.2 = Some [] /\
  (exists msg tb,
     stderr (@Runner_run_file Samples.scripts "script" true MiniPython.fresh
               MiniPython.quiet).2 = [(ValueError msg, tb)]) /\
  exit_calls (@Runner_run_file Samples.scripts "script" true MiniPython.fresh
                MiniPython.quiet).2 = [VInt 1].
Proof.
  exact (Runner_run_file_without_extension (python := Samples.scripts) "script" true
           MiniPython.fresh MiniPython.quiet _ _ eq_refl eq_refl).
Defined.

(** [update_vars_exports], ignoring [data] and [reload]. *)
Lemma update_vars_exports_witness :
  exists exported,
    update_vars Samples.target ["data"; "reload"] MiniPython.fresh = (Ok tt, exported) /\
    exported !! "data" = Some (VInt 5) /\
    exported !! "reload" = None /\
    exported !! "__name__" = Some (VStr "__main__").
Proof.
  destruct (update_vars_exports Samples.target ["data"; "reload"] MiniPython.fresh)
    as (exported & Hexported & Hlookup).
  - apply NoDup_cons. split; [by intros [=]%list_elem_of_singleton|].
    apply NoDup_singleton.
  - intros x [->|[->|[]%elem_of_nil]%elem_of_cons]%elem_of_cons; by eexists.
  - exists exported. split; [exact Hexported|].
    rewrite !Hlookup. repeat split.
Defined.

(** [update_vars_key_error], ignoring a name the runner does not bind. *)
Lemma update_vars_key_error_witness :
  exists name,
    name ∈ ["nothing"] /\
    update_vars Samples.target ["nothing"] MiniPython.fresh =
      (Raise (OtherException "KeyError" name) [], Samples.target).
Proof.
  apply update_vars_key_error. right. exists "nothing".
  split; [by apply list_elem_of_singleton | reflexivity].
Defined.

(** [splitname_parts] on a path with two extensions. *)
Lemma splitname_parts_witness :
  os_path_split "/a/b.tar.gz" = ("/a", "b" +:+ "." +:+ "tar.gz") /\
  forall a b, "b" <> a +:+ "." +:+ b.
Proof.
  exact (splitname_parts (python := MiniPython.python) "/a/b.tar.gz" "/a" "b" "tar.gz"
           eq_refl).
Defined.

(** [rem_encoding_without_declaration] on two assignments. *)
Lemma rem_encoding_without_declaration_witness :
  rem_encoding Samples.splitlines ("x = 1" +:+ nl +:+ "y = 2" +:+ nl) =
    join nl (Samples.splitlines ("x = 1" +:+ nl +:+ "y = 2" +:+ nl)).
Proof.
  apply rem_encoding_without_declaration.
  intros line Hline. vm_compute in Hline.
  apply elem_of_cons in Hline as [->|Hline]; [reflexivity|].
  apply elem_of_cons in Hline as [->|Hline]; [reflexivity|].
  by apply elem_of_nil in Hline.
Defined.

(** [set_style_keeps_known_style] when a known style is requested. *)
Lemma set_style_keeps_known_style_witness :
  let '(result, self', printed) :=
    @set_style Samples.highlighting "monokai" (mkPrompt None) in
  (style self' = None \/
   exists known, style self' = Some known /\ known ∈ @get_all_styles Samples.highlighting) /\
  match result with
  | Ok _ =>
      printed = [] /\
      if decide ("monokai" = "none") then style self' = None
      else style self' = Some "monokai" /\ @prompt_toolkit Samples.highlighting = true
  | Raise e _ =>
      self' = mkPrompt None /\
      (e = SystemExit (VInt 0) <->
       @prompt_toolkit Samples.highlighting = true /\ "monokai" = "list")
  end.
Proof.
  exact (set_style_keeps_known_style (highlighting := Samples.highlighting)
           "monokai" (mkPrompt None) (or_introl eq_refl)).
Defined.

